(** * A shallow embedding of the course-materials RAG chatbot core

    The development follows the two modules that carry the control flow of
    the backend:

    - [backend/search_tools.py]: the tool layer ([CourseSearchTool],
      [CourseOutlineTool]) and the registry ([ToolManager]);
    - [backend/ai_generator.py]: the orchestrator ([AIGenerator]) with its
      bounded round loop, its retry wrapper and its per-round tool runner.

    Python objects that are mutated in place (a tool's [last_sources], the
    manager's [session_sources], the local list [messages]) live in an
    explicit state that every operation threads; exceptions are the left
    summand of the result, and a raised exception keeps the state reached so
    far, as in Python. *)

From stdpp Require Import base strings pretty list.
From Stdlib Require Import ZArith Lia Ascii String.

Open Scope string_scope.
Open Scope list_scope.

(** ** Python values, strings and exceptions *)

Module Py.

(** The scalar values that reach the code as tool arguments (decoded JSON
    handed over by the model). *)
Inductive value :=
| VNone
| VBool (b : bool)
| VInt (z : Z)
| VStr (s : string).

#[global] Instance value_eq_dec : EqDecision value.
Proof. solve_decision. Defined.

(** Truth value testing: [if v:]. *)
Definition truthy (v : value) : bool :=
  match v with
  | VNone => false
  | VBool b => b
  | VInt z => negb (z =? 0)%Z
  | VStr s => negb (String.eqb s "")
  end.

(** [str(v)], which is what an f-string field [{v}] renders. *)
Definition str (v : value) : string :=
  match v with
  | VNone => "None"
  | VBool true => "True"
  | VBool false => "False"
  | VInt z => pretty z
  | VStr s => s
  end.

(** [if s:] for an [Optional[str]]. *)
Definition truthy_str (o : option string) : bool :=
  match o with
  | None => false
  | Some s => negb (String.eqb s "")
  end.

(** [c.lower()] on one character; strings are byte strings here and only
    the ASCII letters have a case. *)
Definition lower_ascii (c : ascii) : ascii :=
  let n := nat_of_ascii c in
  if (65 <=? n)%nat && (n <=? 90)%nat then ascii_of_nat (n + 32) else c.

Fixpoint lower (s : string) : string :=
  match s with
  | EmptyString => EmptyString
  | String c s' => String (lower_ascii c) (lower s')
  end.

(** [sub in s]. *)
Fixpoint contains (sub s : string) : bool :=
  String.prefix sub s ||
  match s with
  | EmptyString => false
  | String _ s' => contains sub s'
  end.

(** The line feed of ["\n"]. *)
Definition nl : string := String (ascii_of_nat 10) EmptyString.

(** An instance of [Exception]: its class name and [str(e)].  Signals that
    derive from [BaseException] only are not caught by any handler of this
    code and are not modelled. *)
Record exn := Exn { exn_class : string; exn_msg : string }.

(** Keyword arguments of a call that unpacks a dict [d] with two stars, in
    the insertion order of [d]. *)
Definition kwargs := list (string * value).

Fixpoint kw_get (k : string) (kw : kwargs) : option value :=
  match kw with
  | [] => None
  | (k', v) :: kw' => if String.eqb k k' then Some v else kw_get k kw'
  end.

End Py.

Export Py(value, VNone, VBool, VInt, VStr, exn, Exn, exn_class, exn_msg, kwargs).

(** ** Effects: state and exceptions *)

(** A computation over a mutable world [W]: it returns a value or raises,
    and in both cases leaves the world it reached. *)
Definition eff (W A : Type) : Type := W -> (exn + A) * W.

Definition eret {W A} (a : A) : eff W A := fun w => (inr a, w).

Definition eraise {W A} (e : exn) : eff W A := fun w => (inl e, w).

Definition ebind {W A B} (m : eff W A) (k : A -> eff W B) : eff W B :=
  fun w =>
    match m w with
    | (inr a, w') => k a w'
    | (inl e, w') => (inl e, w')
    end.

(** [try: m  except Exception as e: h e]. *)
Definition etry {W A} (m : eff W A) (h : exn -> eff W A) : eff W A :=
  fun w =>
    match m w with
    | (inr a, w') => (inr a, w')
    | (inl e, w') => h e w'
    end.

Definition eget {W} : eff W W := fun w => (inr w, w).

Definition emodify {W} (f : W -> W) : eff W unit := fun w => (inr tt, f w).

Notation "'let*' x := m 'in' k" := (ebind m (fun x => k))
  (at level 10, x pattern, m at level 100, k at level 200, only parsing).

(** Running a computation on a component of a pair. *)
Definition on_snd {T S A} (m : eff S A) : eff (T * S) A :=
  fun w => let '(r, s') := m w.2 in (r, (w.1, s')).

(** ** The tool layer and the registry: [search_tools.py] *)

Module SearchTools.

(** A citation, the dict with keys [display_text] and [lesson_link] that
    the tools build for the UI. *)
Record source := Source { display_text : string; lesson_link : option string }.

(** Modelled from the spec: the shapes that [vector_store.py] (not among
    the sources) hands to the tools.  A chunk's metadata dict has an
    optional [course_title] and an optional [lesson_number]; [None] is an
    absent key. *)
Record chunk_meta := ChunkMeta { course_title : option string; lesson_number : option Z }.

(** Modelled from the spec: the [SearchResults] of [vector_store.py], the
    result of a search: documents, their metadata, and an optional error
    message.  The distances are never read by the tools and are left
    out. *)
Record SearchResults := { documents : list string; metadata : list chunk_meta; error : option string }.

(** Modelled from the spec: [SearchResults.is_empty], true on zero hits. *)
Definition is_empty (r : SearchResults) : bool :=
  match documents r with
  | [] => true
  | _ :: _ => false
  end.

(** Modelled from the spec: one entry of the lesson list that the catalog
    stores as JSON text under [lessons_json]. *)
Record lesson := Lesson { l_lesson_number : option Z; l_lesson_title : option string }.

(** Modelled from the spec: a course's metadata dict in the catalog;
    [None] is an absent key. *)
Record course_meta := CourseMeta {
  title : option string;
  course_link : option string;
  instructor : option string;
  lessons_json : option string }.

(** Modelled from the spec: the dict that [course_catalog.get] returns,
    with its [metadatas] entry. *)
Record get_result := GetResult { metadatas : option (list course_meta) }.

(** The document store as the tools use it.  Every operation may raise
    and may change the store's own state [S]. *)
Record VectorStore (S : Type) := {
  search : value -> value -> value -> eff S SearchResults;
  get_lesson_link : string -> Z -> eff S (option string);
  _resolve_course_name : value -> eff S (option string);
  course_catalog_get : string -> eff S (option get_result) }.
Arguments search {S}.
Arguments get_lesson_link {S}.
Arguments _resolve_course_name {S}.
Arguments course_catalog_get {S}.

(** The classes that implement [Tool].  Besides the two tools of the
    module, [OtherTool] is any further implementation: the name of its
    definition (if any) and what its [execute] does to its own
    [last_sources] attribute. *)
Inductive tool_impl :=
| CourseSearchTool
| CourseOutlineTool
| OtherTool (name : option string)
    (run : kwargs -> option (list source) -> (exn + string) * option (list source)).

(** A tool object; [last_sources = None] is an object without that
    attribute. *)
Record tool := Tool { impl : tool_impl; last_sources : option (list source) }.

Definition set_last_sources (ls : option (list source)) (t : tool) : tool :=
  {| impl := impl t; last_sources := ls |}.

(** The constructors: both tools start with [last_sources = []]. *)
Definition new_CourseSearchTool : tool := Tool CourseSearchTool (Some []).
Definition new_CourseOutlineTool : tool := Tool CourseOutlineTool (Some []).

(** [get_tool_definition()["name"]]. *)
Definition definition_name (t : tool) : option string :=
  match impl t with
  | CourseSearchTool => Some "search_course_content"
  | CourseOutlineTool => Some "get_course_outline"
  | OtherTool name _ => name
  end.

(** Binding the keyword arguments of [execute(self, ...)]: the first
    keyword that is no parameter is refused, then a missing required
    parameter (messages as CPython 3.10 and later word them). *)
Fixpoint check_keywords (fname : string) (params : list string) (kw : kwargs) : option exn :=
  match kw with
  | [] => None
  | (k, _) :: kw' =>
      if String.eqb k "self" then
        Some (Exn "TypeError" (fname +:+ "() got multiple values for argument 'self'"))
      else if existsb (String.eqb k) params then check_keywords fname params kw'
      else Some (Exn "TypeError" (fname +:+ "() got an unexpected keyword argument '" +:+ k +:+ "'"))
  end.

Definition bind_arguments {W} (fname : string) (params : list string) (required : string)
    (kw : kwargs) : eff W unit :=
  match check_keywords fname params kw with
  | Some e => eraise e
  | None =>
      match Py.kw_get required kw with
      | Some _ => eret tt
      | None => eraise (Exn "TypeError"
                  (fname +:+ "() missing 1 required positional argument: '" +:+ required +:+ "'"))
      end
  end.

Definition kw_default (k : string) (kw : kwargs) : value := default VNone (Py.kw_get k kw).

Section Tools.

Context {S : Type}.
Variable store : VectorStore S.

(** [json.loads] on the catalog's [lessons_json] text: the decoded
    lesson list, or [None] for [JSONDecodeError]. *)
Variable json_loads : string -> option (list lesson).

(** *** [CourseSearchTool] *)

Definition lesson_suffix (lesson_num : option Z) : string :=
  match lesson_num with
  | Some n => " - Lesson " +:+ pretty n
  | None => ""
  end.

(** The loop of [_format_results] over [zip(documents, metadata)]. *)
Fixpoint format_hits (hits : list (string * chunk_meta))
    (formatted : list string) (sources : list source)
    : eff S (list string * list source) :=
  match hits with
  | [] => eret (formatted, sources)
  | (doc, meta) :: hits' =>
      let title := default "unknown" (course_title meta) in
      let lesson_num := lesson_number meta in
      let header := "[" +:+ title +:+ lesson_suffix lesson_num +:+ "]" in
      let source_display := title +:+ lesson_suffix lesson_num in
      let* link :=
        match lesson_num with
        | Some n =>
            if negb (String.eqb title "unknown")
            then get_lesson_link store title n
            else eret None
        | None => eret None
        end in
      format_hits hits'
        (formatted ++ [header +:+ Py.nl +:+ doc])
        (sources ++ [Source source_display link])
  end.

Definition _format_results (results : SearchResults) : eff (tool * S) string :=
  let* (formatted, sources) :=
    on_snd (format_hits (zip (documents results) (metadata results)) [] []) in
  let* _ := emodify (fun w : tool * S => (set_last_sources (Some sources) w.1, w.2)) in
  eret (String.concat (Py.nl +:+ Py.nl) formatted).

Definition filter_info (course_name lesson_number : value) : string :=
  (if Py.truthy course_name then " in course '" +:+ Py.str course_name +:+ "'" else "")
  +:+ (if Py.truthy lesson_number then " in lesson " +:+ Py.str lesson_number else "").

Definition CourseSearchTool_execute (query course_name lesson_number : value)
    : eff (tool * S) string :=
  let* results := on_snd (search store query course_name lesson_number) in
  if Py.truthy_str (error results) then eret (default "" (error results))
  else if is_empty results then
    eret ("No relevant content found" +:+ filter_info course_name lesson_number +:+ ".")
  else _format_results results.

(** *** [CourseOutlineTool] *)

Definition lesson_line (l : lesson) : string :=
  "  Lesson " +:+ from_option pretty "" (l_lesson_number l) +:+ ": "
  +:+ default "" (l_lesson_title l).

Definition _format_outline (md : course_meta) : eff (tool * S) string :=
  let title := default "Unknown Course" (title md) in
  let course_link := default "" (course_link md) in
  let instructor := default "" (instructor md) in
  let lessons_json := default "[]" (lessons_json md) in
  let lessons := default [] (json_loads lessons_json) in
  let outline : list string :=
    (["Course: " +:+ title]
     ++ (if negb (String.eqb instructor "") then ["Instructor: " +:+ instructor] else [])
     ++ (if negb (String.eqb course_link "") then ["Course Link: " +:+ course_link] else [])
     ++ (match lessons with
         | _ :: _ => (Py.nl +:+ "Lessons:") :: map lesson_line lessons
         | [] => [Py.nl +:+ "No lessons found"]
         end))%list in
  let source_data := Source (title +:+ " - Course Outline") (Some course_link) in
  let* _ := emodify (fun w : tool * S => (set_last_sources (Some [source_data]) w.1, w.2)) in
  eret (String.concat Py.nl outline).

Definition CourseOutlineTool_execute (course_name : value) : eff (tool * S) string :=
  let* course_title := on_snd (_resolve_course_name store course_name) in
  if negb (Py.truthy_str course_title) then
    eret ("No course found matching '" +:+ Py.str course_name +:+ "'")
  else
    let course_title := default "" course_title in
    etry
      (let* results := on_snd (course_catalog_get store course_title) in
       match results with
       | Some {| metadatas := Some (metadata :: _) |} => _format_outline metadata
       | _ => eret ("Course metadata not found for '" +:+ course_title +:+ "'")
       end)
      (fun e => eret ("Error retrieving course outline: " +:+ exn_msg e)).

(** [tool.execute] called with unpacked keyword arguments, dispatched
    on the tool's class. *)
Definition execute (kw : kwargs) : eff (tool * S) string :=
  let* w := eget in
  match impl w.1 with
  | CourseSearchTool =>
      let* _ := bind_arguments "CourseSearchTool.execute"
                  ["query"; "course_name"; "lesson_number"] "query" kw in
      CourseSearchTool_execute
        (kw_default "query" kw) (kw_default "course_name" kw) (kw_default "lesson_number" kw)
  | CourseOutlineTool =>
      let* _ := bind_arguments "CourseOutlineTool.execute" ["course_name"] "course_name" kw in
      CourseOutlineTool_execute (kw_default "course_name" kw)
  | OtherTool _ run =>
      fun w => let '(r, ls) := run kw (last_sources w.1) in (r, (set_last_sources ls w.1, w.2))
  end.

(** *** [ToolManager] *)

(** The registry object: the dict [tools] in insertion order (the scan
    order of [get_last_sources]) and the session-wide citation log. *)
Record ToolManager := { tools : list (string * tool); session_sources : list source }.

Definition new_ToolManager : ToolManager := {| tools := []; session_sources := [] |}.

(** [d[k]] and [k in d]. *)
Fixpoint dict_get (k : string) (d : list (string * tool)) : option tool :=
  match d with
  | [] => None
  | (k', t) :: d' => if String.eqb k k' then Some t else dict_get k d'
  end.

(** [d[k] = t]: an existing key keeps its position, a new one goes last. *)
Fixpoint dict_set (k : string) (t : tool) (d : list (string * tool)) : list (string * tool) :=
  match d with
  | [] => [(k, t)]
  | (k', t') :: d' => if String.eqb k k' then (k, t) :: d' else (k', t') :: dict_set k t d'
  end.

Definition register_tool (t : tool) : eff ToolManager unit :=
  if Py.truthy_str (definition_name t) then
    emodify (fun tm => {| tools := dict_set (default "" (definition_name t)) t (tools tm);
                          session_sources := session_sources tm |})
  else eraise (Exn "ValueError" "Tool must have a 'name' in its definition").

(** [execute_tool] with the keyword arguments it collected.  The tool
    object stays in the dict while its [execute] mutates it, so the entry
    is written back whether or not the call raises. *)
Definition execute_tool (tool_name : string) (kw : kwargs) : eff (ToolManager * S) string :=
  fun w =>
    let tm := w.1 in
    match dict_get tool_name (tools tm) with
    | None => (inr ("Tool '" +:+ tool_name +:+ "' not found"), w)
    | Some t =>
        let '(r, (t', s')) := execute kw (t, w.2) in
        let tools' := dict_set tool_name t' (tools tm) in
        match r with
        | inl e => (inl e, ({| tools := tools'; session_sources := session_sources tm |}, s'))
        | inr result =>
            let session' :=
              match last_sources t' with
              | Some ls => session_sources tm ++ ls
              | None => session_sources tm
              end in
            (inr result, ({| tools := tools'; session_sources := session' |}, s'))
        end
    end.

Fixpoint first_last_sources (d : list (string * tool)) : list source :=
  match d with
  | [] => []
  | (_, t) :: d' =>
      match last_sources t with
      | Some (x :: ls) => x :: ls
      | _ => first_last_sources d'
      end
  end.

Definition get_last_sources (tm : ToolManager) : list source :=
  first_last_sources (tools tm).

Definition get_all_sources_from_session (tm : ToolManager) : list source :=
  session_sources tm.

Definition reset_tool (t : tool) : tool :=
  match last_sources t with
  | Some _ => set_last_sources (Some []) t
  | None => t
  end.

Definition reset_sources (tm : ToolManager) : ToolManager :=
  {| tools := map (fun kt : string * tool => (kt.1, reset_tool kt.2)) (tools tm);
     session_sources := [] |}.

End Tools.

(** The fixed format of an outline, line by line: a title line, an
    optional instructor line, an optional link line, then a lessons header
    with one line per lesson, or a line saying that there are no lessons. *)
Definition spec_outline_lines (title instructor link : string) (lessons : list lesson)
    : list string :=
  ("Course: " +:+ title)
  :: (if decide (instructor = "") then [] else ["Instructor: " +:+ instructor])
  ++ (if decide (link = "") then [] else ["Course Link: " +:+ link])
  ++ (if decide (lessons = []) then [Py.nl +:+ "No lessons found"]
      else (Py.nl +:+ "Lessons:")
           :: map (fun l => "  Lesson " +:+ from_option pretty "" (l_lesson_number l)
                            +:+ ": " +:+ default "" (l_lesson_title l)) lessons).

(** *** Stores for the examples *)

(** A store over a single indexed passage of the course ["MCP"], lesson 0:
    the query ["intro"] hits it, every other query hits nothing. *)
Definition demo_search (query course_name lesson_number : value) : eff unit SearchResults :=
  eret (if decide (query = VStr "intro")
        then {| documents := ["Welcome to MCP"];
                metadata := [ChunkMeta (Some "MCP") (Some 0%Z)];
                error := None |}
        else {| documents := []; metadata := []; error := None |}).

Definition demo_store : VectorStore unit :=
  {| search := demo_search;
     get_lesson_link := fun _ _ => eret (Some "https://example.com/mcp/0");
     _resolve_course_name := fun name =>
       eret (if decide (name = VStr "MCP") then Some "MCP" else None);
     course_catalog_get := fun title =>
       eret (Some (GetResult (Some [CourseMeta (Some "MCP") (Some "https://example.com/mcp")
                                      (Some "Ada") (Some "lessons")]))) |}.

Definition demo_json_loads (s : string) : option (list lesson) :=
  if decide (s = "lessons") then Some [Lesson (Some 0%Z) (Some "Introduction")] else None.

(** A manager with both tools registered, search first. *)
Definition demo_manager : ToolManager :=
  (register_tool new_CourseOutlineTool (register_tool new_CourseSearchTool new_ToolManager).2).2.

Definition demo_execute_tool := execute_tool demo_store demo_json_loads.

(** The manager after a search that hits, and after a following search
    that hits nothing. *)
Definition demo_manager_1 : ToolManager :=
  (demo_execute_tool "search_course_content" [("query", VStr "intro")] (demo_manager, tt)).2.1.

Definition demo_manager_2 : ToolManager :=
  (demo_execute_tool "search_course_content" [("query", VStr "pricing")] (demo_manager_1, tt)).2.1.

Definition demo_source : source := Source "MCP - Lesson 0" (Some "https://example.com/mcp/0").

(** *** Tool definitions and the registry invariant *)

(** One entry of [input_schema["properties"]]. *)
Record property_schema := PropertySchema { p_type : string; p_description : string }.

(** The dict that [get_tool_definition] returns; [input_schema] is an
    object schema with its [properties] and its [required] list. *)
Record tool_definition := {
  d_name : string;
  d_description : string;
  d_schema_type : string;
  d_properties : list (string * property_schema);
  d_required : list string }.

Definition CourseSearchTool_get_tool_definition : tool_definition :=
  {| d_name := "search_course_content";
     d_description :=
       "Search course materials with smart course name matching and lesson filtering";
     d_schema_type := "object";
     d_properties :=
       [("query", PropertySchema "string" "What to search for in the course content");
        ("course_name",
         PropertySchema "string"
           "Course title (partial matches work, e.g. 'MCP', 'Introduction')");
        ("lesson_number",
         PropertySchema "integer" "Specific lesson number to search within (e.g. 1, 2, 3)")];
     d_required := ["query"] |}.

Definition CourseOutlineTool_get_tool_definition : tool_definition :=
  {| d_name := "get_course_outline";
     d_description := "Get course outline including title, link, and complete lesson list";
     d_schema_type := "object";
     d_properties :=
       [("course_name",
         PropertySchema "string"
           "Course title (partial matches work, e.g. 'MCP', 'Introduction')")];
     d_required := ["course_name"] |}.

(** The keyword arguments fit the schema of a definition: every key is a
    declared property and every required property is given. *)
Definition conforms (d : tool_definition) (kw : kwargs) : bool :=
  forallb (fun k => existsb (String.eqb k) (map fst (d_properties d))) (map fst kw)
  && forallb (fun r => bool_decide (is_Some (Py.kw_get r kw))) (d_required d).

(** The names under which [get_tool_definitions] advertises the tools, in
    its order (the insertion order of the dict). *)
Definition advertised_names (tm : ToolManager) : list (option string) :=
  map (fun kt : string * tool => definition_name kt.2) (tools tm).

(** Every key of the registry is the non-empty name of the definition of
    the tool stored under it, and no key occurs twice. *)
Definition registry_ok (tm : ToolManager) : Prop :=
  NoDup (map fst (tools tm))
  /\ Forall (fun kt : string * tool => kt.1 <> "" /\ definition_name kt.2 = Some kt.1) (tools tm).

Definition no_sources (t : tool) : Prop :=
  last_sources t = None \/ last_sources t = Some [].


(** A store whose catalog and link lookups are down. *)
Definition broken_store : VectorStore unit :=
  {| search := demo_search;
     get_lesson_link := fun _ _ => eraise (Exn "ConnectionError" "link service unreachable");
     _resolve_course_name := fun name =>
       eret (if decide (name = VStr "MCP") then Some "MCP" else None);
     course_catalog_get := fun _ => eraise (Exn "RuntimeError" "catalog unavailable") |}.

(** A tool without a name in its definition, and one without citations. *)
Definition nameless_tool : tool := Tool (OtherTool None (fun _ ls => (inr "ok", ls))) None.

Definition echo_tool : tool := Tool (OtherTool (Some "echo") (fun _ ls => (inr "ok", ls))) None.

End SearchTools.

(** ** The orchestrator: [ai_generator.py] *)

Module AIGenerator.

(** One block of a model response: text, or a request to run a tool. *)
Inductive content_block :=
| TextBlock (text : string)
| ToolUseBlock (id name : string) (input : kwargs).

(** The dict with [type = "tool_result"] that answers one tool request. *)
Record tool_result := ToolResult { tool_use_id : string; result_content : string }.

(** What a message's [content] holds: the query string, the blocks of a
    model response, or the tool results of a round. *)
Inductive message_content :=
| Query (s : string)
| Blocks (bs : list content_block)
| ToolResults (rs : list tool_result).

Record message := Message { role : string; content : message_content }.

Record response := Response { response_content : list content_block; stop_reason : string }.

(** [block.type == "tool_use"]. *)
Definition is_tool_use (b : content_block) : bool :=
  match b with
  | ToolUseBlock _ _ _ => true
  | TextBlock _ => false
  end.

Definition SYSTEM_PROMPT : string := " You are an AI assistant specialized in course materials and educational content with access to comprehensive search tools for course information.

Tool Usage Guidelines:
- **Content search tool**: Use for questions about specific course content, materials, or detailed educational information within courses
- **Course outline tool**: Use for questions about course structure, lesson lists, course titles, instructors, or course overviews
- **Sequential tool usage**: You can make up to 2 tool calls in separate rounds to gather comprehensive information
- **Multi-step reasoning**: After seeing tool results, you can make additional tool calls if needed to fully answer the question
- **Tool call strategy**: Use results from first tool call to inform parameters for second tool call
- Synthesize all tool results into accurate, fact-based responses
- If any tool yields no results, state this clearly without offering alternatives

Response Protocol:
- **General knowledge questions**: Answer using existing knowledge without using tools
- **Course content questions**: Use content search tool first, then additional searches if needed
- **Course structure/outline questions**: Use course outline tool first, then content search if needed
- **Complex queries**: Break down into multiple targeted tool calls across rounds
- **No meta-commentary**: Provide direct answers only â€” no reasoning process, tool explanations, or question-type analysis

For outline queries, always include:
- Course title
- Course link (if available)
- Complete lesson list with lesson numbers and titles

All responses must be:
1. **Brief, Concise and focused** - Get to the point quickly
2. **Educational** - Maintain instructional value
3. **Clear** - Use accessible language
4. **Example-supported** - Include relevant examples when they aid understanding
Provide only the direct answer to what was asked.
".

Section Orchestrator.

(** [ToolDef]: the tool definitions handed to the model; [CS]: the state
    of the API client (the model behind it); [TMS]: the state of the tool
    manager object. *)
Context {ToolDef CS TMS : Type}.

(** The keyword arguments of [client.messages.create]. *)
Record api_params := {
  model : string;
  temperature : Z;
  max_tokens : Z;
  messages : list message;
  system : string;
  tools : option (list ToolDef);
  tool_choice : option string }.

(** What the orchestrator does to the outside, in order. *)
Inductive event :=
| EvCreate (attempt : nat) (p : api_params)
| EvSleep (seconds : nat)
| EvExecuteTool (name : string) (input : kwargs).

(** The state a call runs in: the client, the tool manager, the events so
    far, and the locals [messages] and [response] of [generate_response]. *)
Record frame := Frame {
  client : CS;
  tool_manager_state : TMS;
  trace : list event;
  local_messages : list message;
  local_response : option response }.

Definition log (ev : event) (f : frame) : frame :=
  Frame (client f) (tool_manager_state f) (trace f ++ [ev]) (local_messages f) (local_response f).

(** [client.messages.create], a request to the model: it answers or
    raises. *)
Variable create : api_params -> eff CS response.

(** [self.model]. *)
Variable self_model : string.

(** A tool manager: its [execute_tool]. *)
Definition executor := string -> kwargs -> eff TMS string.

Definition call_create (attempt : nat) (p : api_params) : eff frame response :=
  fun f =>
    let '(r, c) := create p (client f) in
    (r, log (EvCreate attempt p)
          (Frame c (tool_manager_state f) (trace f) (local_messages f) (local_response f))).

Definition call_execute_tool (execute_tool : executor) (name : string) (input : kwargs)
    : eff frame string :=
  fun f =>
    let '(r, m) := execute_tool name input (tool_manager_state f) in
    (r, log (EvExecuteTool name input)
          (Frame (client f) m (trace f) (local_messages f) (local_response f))).

Definition sleep (seconds : nat) : eff frame unit := emodify (log (EvSleep seconds)).

(** The outcome of a [try] block, for the handler that follows it. *)
Definition attempt_ {W A} (m : eff W A) : eff W (exn + A) :=
  fun w => let '(r, w') := m w in (inr r, w').

(** *** [_api_call_with_retry] *)

Definition is_transient_api_error (e : exn) : bool :=
  let error_msg := Py.lower (exn_msg e) in
  Py.contains "rate limit" error_msg || Py.contains "network" error_msg
  || Py.contains "connection" error_msg.

(** The loop [for attempt in range(max_retries + 1)], entered at [attempt]
    with [remaining = max_retries - attempt]; the last attempt either
    returns or raises, so the loop never falls through. *)
Fixpoint retry_from (p : api_params) (remaining attempt : nat) : eff frame response :=
  let* outcome := attempt_ (call_create attempt p) in
  match outcome with
  | inr r => eret r
  | inl e =>
      match remaining with
      | 0 => eraise e
      | S remaining' =>
          if is_transient_api_error e then
            let* _ := sleep (2 ^ attempt) in
            retry_from p remaining' (S attempt)
          else eraise e
      end
  end.

Definition _api_call_with_retry (p : api_params) (max_retries : nat) : eff frame response :=
  retry_from p max_retries 0.

(** *** [_execute_tools_for_round] *)

Definition is_transient_tool_error (e : exn) : bool :=
  Py.contains "rate limit" (Py.lower (exn_msg e)) || Py.contains "network" (Py.lower (exn_msg e)).

Fixpoint run_blocks (execute_tool : executor) (blocks : list content_block)
    (tool_results : list tool_result) : eff frame (option (list tool_result)) :=
  match blocks with
  | [] => eret (match tool_results with [] => None | _ :: _ => Some tool_results end)
  | TextBlock _ :: blocks' => run_blocks execute_tool blocks' tool_results
  | ToolUseBlock id name input :: blocks' =>
      let* outcome := attempt_ (call_execute_tool execute_tool name input) in
      match outcome with
      | inr r => run_blocks execute_tool blocks' (tool_results ++ [ToolResult id r])
      | inl e =>
          if is_transient_tool_error e then eret None
          else run_blocks execute_tool blocks'
                 (tool_results ++ [ToolResult id ("Tool execution failed: " +:+ exn_msg e)])
      end
  end.

Definition _execute_tools_for_round (r : response) (execute_tool : executor)
    : eff frame (option (list tool_result)) :=
  run_blocks execute_tool (response_content r) [].

(** *** [generate_response] *)

(** [if tools:] on an optional list. *)
Definition truthy_tools (ts : option (list ToolDef)) : bool :=
  match ts with
  | Some (_ :: _) => true
  | _ => false
  end.

Definition round_params (system_content : string) (ts : option (list ToolDef))
    (msgs : list message) : api_params :=
  {| model := self_model; temperature := 0; max_tokens := 800;
     messages := msgs; system := system_content;
     tools := if truthy_tools ts then ts else None;
     tool_choice := if truthy_tools ts then Some "auto" else None |}.

Definition final_params (system_content : string) (msgs : list message) : api_params :=
  {| model := self_model; temperature := 0; max_tokens := 800;
     messages := msgs; system := system_content;
     tools := None; tool_choice := None |}.

Definition set_locals (msgs : list message) (r : option response) (f : frame) : frame :=
  Frame (client f) (tool_manager_state f) (trace f) msgs r.

Definition append_message (m : message) : eff frame unit :=
  emodify (fun f => set_locals (local_messages f ++ [m]) (local_response f) f).

Definition assign_response (r : response) : eff frame unit :=
  emodify (fun f => set_locals (local_messages f) (Some r) f).

(** [content[0].text]. *)
Definition first_text {W} (blocks : list content_block) : eff W string :=
  match blocks with
  | [] => eraise (Exn "IndexError" "list index out of range")
  | TextBlock text :: _ => eret text
  | ToolUseBlock _ _ _ :: _ =>
      eraise (Exn "AttributeError" "'ToolUseBlock' object has no attribute 'text'")
  end.

(** The loop [for round_num in range(max_rounds)] with [n] rounds left;
    returning without recursion is [break]. *)
Fixpoint rounds (system_content : string) (ts : option (list ToolDef))
    (tool_manager : option executor) (n : nat) : eff frame unit :=
  match n with
  | 0 => eret tt
  | S n' =>
      let* f := eget in
      let* r := _api_call_with_retry (round_params system_content ts (local_messages f)) 2 in
      let* _ := assign_response r in
      let* _ := append_message (Message "assistant" (Blocks (response_content r))) in
      match (if String.eqb (stop_reason r) "tool_use" then tool_manager else None) with
      | Some execute_tool =>
          let* tool_results := _execute_tools_for_round r execute_tool in
          match tool_results with
          | Some rs =>
              let* _ := append_message (Message "user" (ToolResults rs)) in
              rounds system_content ts tool_manager n'
          | None => eret tt
          end
      | None => eret tt
      end
  end.

Definition system_content_of (conversation_history : option string) : string :=
  if Py.truthy_str conversation_history
  then SYSTEM_PROMPT +:+ Py.nl +:+ Py.nl +:+ "Previous conversation:" +:+ Py.nl
       +:+ default "" conversation_history
  else SYSTEM_PROMPT.

(** The part of [generate_response] up to the end of the round loop. *)
Definition run_rounds (query : string) (conversation_history : option string)
    (ts : option (list ToolDef)) (tool_manager : option executor) (max_rounds : Z)
    : eff frame unit :=
  let* _ := emodify (set_locals [Message "user" (Query query)] None) in
  rounds (system_content_of conversation_history) ts tool_manager (Z.to_nat max_rounds).

(** The part after the loop. *)
Definition finish (conversation_history : option string) : eff frame string :=
  let* f := eget in
  match last (local_messages f) with
  | None => eraise (Exn "IndexError" "list index out of range")
  | Some m =>
      if String.eqb (role m) "user" then
        let* final_response :=
          _api_call_with_retry
            (final_params (system_content_of conversation_history) (local_messages f)) 2 in
        first_text (response_content final_response)
      else
        match local_response f with
        | Some r => first_text (response_content r)
        | None => eraise (Exn "UnboundLocalError"
                    "cannot access local variable 'response' where it is not associated with a value")
        end
  end.

Definition generate_response (query : string) (conversation_history : option string)
    (ts : option (list ToolDef)) (tool_manager : option executor) (max_rounds : Z)
    : eff frame string :=
  let* _ := run_rounds query conversation_history ts tool_manager max_rounds in
  finish conversation_history.

(** *** Reading a trace *)

(** The model requests: the calls of [_api_call_with_retry], each of which
    starts with attempt 0. *)
Definition is_request (ev : event) : bool :=
  match ev with
  | EvCreate 0 _ => true
  | _ => false
  end.

Definition is_create (ev : event) : bool :=
  match ev with
  | EvCreate _ _ => true
  | _ => false
  end.

Definition is_sleep (ev : event) : bool :=
  match ev with
  | EvSleep _ => true
  | _ => false
  end.

Definition is_execute_tool (ev : event) : bool :=
  match ev with
  | EvExecuteTool _ _ => true
  | _ => false
  end.

Definition requests (tr : list event) : nat := List.length (List.filter is_request tr).
Definition tool_executions (tr : list event) : nat :=
  List.length (List.filter is_execute_tool tr).
Definition create_calls (tr : list event) : nat := List.length (List.filter is_create tr).
Definition retries (tr : list event) : nat := List.length (List.filter is_sleep tr).

(** The backoff delays of a trace, in order. *)
Definition sleeps (tr : list event) : list nat :=
  flat_map (fun ev => match ev with EvSleep n => [n] | _ => [] end) tr.

(** Every request of a trace carries parameters that satisfy [Q]. *)
Definition on_create (Q : api_params -> Prop) (ev : event) : Prop :=
  match ev with
  | EvCreate _ p => Q p
  | _ => True
  end.

(** A stretch of a trace with at most [n] model requests, in which every
    further call of [create] is a retry after a backoff sleep, and whose
    requests all satisfy [Q]. *)
Definition trace_ok (Q : api_params -> Prop) (n : nat) (delta : list event) : Prop :=
  requests delta <= n
  /\ create_calls delta = requests delta + retries delta
  /\ Forall (on_create Q) delta.

Definition tool_calls (blocks : list content_block) : list event :=
  flat_map (fun b => match b with
                     | ToolUseBlock _ name input => [EvExecuteTool name input]
                     | TextBlock _ => []
                     end) blocks.

(** The events of one call of [_api_call_with_retry] that enters at
    [attempt] and retries [k] times: each failed attempt is followed by
    its backoff sleep, and the last attempt ends the call. *)
Definition retry_trace (p : api_params) (attempt k : nat) : list event :=
  flat_map (fun a => [EvCreate a p; EvSleep (2 ^ a)]) (seq attempt k)
  ++ [EvCreate (attempt + k) p].

(** The client after [i] requests with the same parameters. *)
Fixpoint client_after (p : api_params) (c : CS) (i : nat) : CS :=
  match i with
  | 0 => c
  | S i' => client_after p (create p c).2 i'
  end.

(** Running the tools of [blocks] from manager state [m] meets a tool that
    raises an error classified as transient. *)
Inductive raises_transient (execute_tool : executor) : list content_block -> TMS -> Prop :=
| rt_text text blocks m :
    raises_transient execute_tool blocks m ->
    raises_transient execute_tool (TextBlock text :: blocks) m
| rt_here id name input blocks m e m' :
    execute_tool name input m = (inl e, m') ->
    is_transient_tool_error e = true ->
    raises_transient execute_tool (ToolUseBlock id name input :: blocks) m
| rt_after_result id name input blocks m r m' :
    execute_tool name input m = (inr r, m') ->
    raises_transient execute_tool blocks m' ->
    raises_transient execute_tool (ToolUseBlock id name input :: blocks) m
| rt_after_error id name input blocks m e m' :
    execute_tool name input m = (inl e, m') ->
    is_transient_tool_error e = false ->
    raises_transient execute_tool blocks m' ->
    raises_transient execute_tool (ToolUseBlock id name input :: blocks) m.

(** *** [_handle_tool_execution] *)

(** The loop of [_handle_tool_execution] over the blocks: no handler
    around the tool call. *)
Fixpoint collect_tool_results (execute_tool : executor) (blocks : list content_block)
    (tool_results : list tool_result) : eff frame (list tool_result) :=
  match blocks with
  | [] => eret tool_results
  | TextBlock _ :: blocks' => collect_tool_results execute_tool blocks' tool_results
  | ToolUseBlock id name input :: blocks' =>
      let* r := call_execute_tool execute_tool name input in
      collect_tool_results execute_tool blocks' (tool_results ++ [ToolResult id r])
  end.

(** The request after the tools of [_handle_tool_execution]: the base
    messages, the assistant turn and, if there are any, the tool results. *)
Definition follow_up_messages (initial_response : response) (base_params : api_params)
    (tool_results : list tool_result) : list message :=
  let msgs := messages base_params
              ++ [Message "assistant" (Blocks (response_content initial_response))] in
  match tool_results with
  | [] => msgs
  | _ :: _ => msgs ++ [Message "user" (ToolResults tool_results)]
  end.

(** The client is called directly here, not through the retry wrapper. *)
Definition _handle_tool_execution (initial_response : response) (base_params : api_params)
    (execute_tool : executor) : eff frame string :=
  let* tool_results :=
    collect_tool_results execute_tool (response_content initial_response) [] in
  let final :=
    final_params (system base_params)
      (follow_up_messages initial_response base_params tool_results) in
  let* final_response := call_create 0 final in
  first_text (response_content final_response).

(** Running the tools of [blocks] from manager state [m], the first tool
    that raises anything raises [e]. *)
Inductive tool_raises (execute_tool : executor) : list content_block -> TMS -> exn -> Prop :=
| tr_text text blocks m e :
    tool_raises execute_tool blocks m e ->
    tool_raises execute_tool (TextBlock text :: blocks) m e
| tr_here id name input blocks m e m' :
    execute_tool name input m = (inl e, m') ->
    tool_raises execute_tool (ToolUseBlock id name input :: blocks) m e
| tr_later id name input blocks m r m' e :
    execute_tool name input m = (inr r, m') ->
    tool_raises execute_tool blocks m' e ->
    tool_raises execute_tool (ToolUseBlock id name input :: blocks) m e.

(** The outcomes of the tool calls of [blocks], in order, when the tools
    are run one after the other from manager state [m]. *)
Fixpoint tool_outcomes (execute_tool : executor) (blocks : list content_block) (m : TMS)
    : list (exn + string) :=
  match blocks with
  | [] => []
  | TextBlock _ :: blocks' => tool_outcomes execute_tool blocks' m
  | ToolUseBlock _ name input :: blocks' =>
      let '(o, m') := execute_tool name input m in
      o :: tool_outcomes execute_tool blocks' m'
  end.

(** *** What the requests of a call carry *)

Definition loop_request_ok (sc : string) (ts : option (list ToolDef)) (p : api_params) : Prop :=
  model p = self_model /\ temperature p = 0%Z /\ max_tokens p = 800%Z /\ system p = sc
  /\ tools p = (if truthy_tools ts then ts else None)
  /\ tool_choice p = (if truthy_tools ts then Some "auto" else None).

Definition final_request_ok (sc : string) (p : api_params) : Prop :=
  model p = self_model /\ temperature p = 0%Z /\ max_tokens p = 800%Z /\ system p = sc
  /\ tools p = None /\ tool_choice p = None.

(** The seconds a trace spends in backoff. *)
Definition backoff_seconds (tr : list event) : nat := sum_list (sleeps tr).

(** A stretch of a trace that spends at most three seconds and three
    client calls on each of its model requests. *)
Definition within_budget (d : list event) : Prop :=
  backoff_seconds d <= 3 * requests d /\ create_calls d <= 3 * requests d.

End Orchestrator.

Arguments api_params : clear implicits.
Arguments event : clear implicits.
Arguments frame : clear implicits.
Arguments executor : clear implicits.

(** *** The shape of the round state *)

Definition tool_use_ids (blocks : list content_block) : list string :=
  flat_map (fun b => match b with
                     | ToolUseBlock id _ _ => [id]
                     | TextBlock _ => []
                     end) blocks.

(** The turns alternate from the seeded user query on; every assistant
    turn holds the blocks of a model response; every later user turn holds
    tool results, one for each tool request of the assistant turn before
    it, in the same order. *)
Definition well_formed_conversation (query : string) (msgs : list message) : Prop :=
  msgs !! 0 = Some (Message "user" (Query query))
  /\ (forall i m, msgs !! i = Some m ->
        role m = if Nat.even i then "user" else "assistant")
  /\ (forall i m, msgs !! i = Some m -> Nat.even i = false ->
        exists bs, content m = Blocks bs)
  /\ (forall i m, msgs !! (2 + i) = Some m -> Nat.even i = true ->
        exists rs bs,
          content m = ToolResults rs
          /\ msgs !! (1 + i) = Some (Message "assistant" (Blocks bs))
          /\ map tool_use_id rs = tool_use_ids bs
          /\ List.length rs = List.length (List.filter is_tool_use bs)).

(** The turns after the seed, as the loop builds them: [closed] is a
    sequence of finished rounds (assistant turn, then its tool results);
    [opened rest bs] ends in an assistant turn with blocks [bs] that has
    no tool results yet. *)
Inductive closed : list message -> Prop :=
| closed_nil : closed []
| closed_round bs rs rest :
    map tool_use_id rs = tool_use_ids bs ->
    closed rest ->
    closed (Message "assistant" (Blocks bs) :: Message "user" (ToolResults rs) :: rest).

Inductive opened : list message -> list content_block -> Prop :=
| opened_last bs : opened [Message "assistant" (Blocks bs)] bs
| opened_round bs rs rest bs' :
    map tool_use_id rs = tool_use_ids bs ->
    opened rest bs' ->
    opened (Message "assistant" (Blocks bs) :: Message "user" (ToolResults rs) :: rest) bs'.

(** What the turns after the seed look like, by position. *)
Definition turns_ok (rest : list message) : Prop :=
  (forall i m, rest !! i = Some m ->
     role m = if Nat.even i then "assistant" else "user")
  /\ (forall i m, rest !! i = Some m -> Nat.even i = true -> exists bs, content m = Blocks bs)
  /\ (forall i m, rest !! (S i) = Some m -> Nat.even i = true ->
       exists rs bs,
         content m = ToolResults rs
         /\ rest !! i = Some (Message "assistant" (Blocks bs))
         /\ map tool_use_id rs = tool_use_ids bs).

Definition shape (query : string) (msgs : list message) : Prop :=
  exists rest, msgs = Message "user" (Query query) :: rest
               /\ (closed rest \/ exists bs, opened rest bs).

(** What every request of a call carries: a well-shaped conversation, the
    tool definitions when they are given, and the system instruction. *)
Definition round_request {ToolDef : Type} (query sc : string) (ts : option (list ToolDef))
    (p : api_params ToolDef) : Prop :=
  shape query (messages p)
  /\ system p = sc
  /\ (tools p = (if truthy_tools ts then ts else None) \/ tools p = None).

(** *** A scripted client and a scripted tool manager

    As the mocks of the test suite: each call takes the next outcome of
    the script, whatever the arguments are. *)

Definition scripted {A B : Type} (_ : A) : eff (list (exn + B)) B :=
  fun script =>
    match script with
    | [] => (inl (Exn "StopIteration" ""), [])
    | outcome :: script' => (outcome, script')
    end.

Definition scripted_create : api_params string -> eff (list (exn + response)) response :=
  scripted.

Definition scripted_execute_tool : executor (list (exn + string)) :=
  fun name input => scripted (name, input).

Definition demo_model : string := "claude-sonnet-4-20250514".

Definition demo_generate_response :=
  generate_response (ToolDef := string) (TMS := list (exn + string)) scripted_create demo_model.

Definition demo_frame (script : list (exn + response)) (results : list (exn + string))
    : frame string (list (exn + response)) (list (exn + string)) :=
  Frame script results [] [] None.

Definition demo_tool_use_1 : response :=
  Response [ToolUseBlock "tool_1" "get_course_outline" [("course_name", VStr "MCP Course")]]
           "tool_use".

Definition demo_tool_use_2 : response :=
  Response [ToolUseBlock "tool_2" "search_course_content"
              [("query", VStr "lesson 3 content"); ("course_name", VStr "MCP Course")]]
           "tool_use".

Definition demo_final : response :=
  Response [TextBlock "Here's the comprehensive information about lesson 3..."] "end_turn".

(** A tool manager whose tools always return [result]; its state counts
    the calls. *)
Definition counting_execute_tool (result : string) : executor nat :=
  fun _ _ calls => (inr result, S calls).

Definition demo_script : list (exn + response) :=
  [inr demo_tool_use_1; inr demo_tool_use_2; inr demo_final].

Definition demo_tools : option (list string) :=
  Some ["search_course_content"; "get_course_outline"].

(** The run of the sequential-tool-calls test of the suite. *)
Definition demo_two_rounds :=
  generate_response (ToolDef := string) scripted_create demo_model
    "Tell me about lesson 3 in MCP Course with detailed content" None demo_tools
    (Some (counting_execute_tool "Tool result")) 2
    (Frame demo_script 0 [] [] None).

Definition demo_retry (script : list (exn + response)) :=
  _api_call_with_retry (ToolDef := string) (TMS := unit) scripted_create
    (final_params demo_model "system" []) 2 (Frame script tt [] [] None).

(** A tool request that the model introduces with a sentence. *)
Definition demo_tool_use_with_text : response :=
  Response [TextBlock "Let me look that up.";
            ToolUseBlock "tool_1" "search_course_content" [("query", VStr "lesson 3")]]
           "tool_use".



(** What the model is shown for the outcome of a tool call that did not
    end the rounds. *)
Definition render_outcome (o : exn + string) : string :=
  match o with
  | inr r => r
  | inl e => "Tool execution failed: " +:+ exn_msg e
  end.

Definition is_transient_outcome (o : exn + string) : bool :=
  match o with
  | inr _ => false
  | inl e => is_transient_tool_error e
  end.


(** A client that is rate limited on every request. *)
Definition always_rate_limited : api_params string -> eff nat response :=
  fun _ calls => (inl (Exn "Exception" "API Error: Rate limit exceeded"), S calls).

(** A run in which the only tool call of round 1 hits a rate limit, with an
    answer scripted for a synthesis request. *)
Definition demo_rate_limited :=
  demo_generate_response "What is in lesson 3?" None demo_tools
    (Some scripted_execute_tool) 2
    (demo_frame [inr demo_tool_use_with_text; inr demo_final]
                [inl (Exn "Exception" "Rate limit exceeded, retry later")]).

End AIGenerator.

(** ** The linting script: [scripts/lint.py] *)

Module LintScript.

(** What [subprocess.run] returns with [capture_output=True, text=True]. *)
Record completed := Completed { returncode : Z; stdout : string; stderr : string }.

Section Script.

(** [OS]: the state of the machine the commands run on. *)
Context {OS : Type}.

(** [subprocess.run(cmd, ...)]: it returns the completed process or
    raises (a missing executable, say). *)
Variable subprocess_run : list string -> eff OS completed.

(** The machine, the commands run so far and the lines printed so far. *)
Record world := World { os : OS; ran : list (list string); printed : list string }.

Definition print (line : string) : eff world unit :=
  emodify (fun w => World (os w) (ran w) (printed w ++ [line])).

Definition call_subprocess_run (cmd : list string) : eff world completed :=
  fun w =>
    let '(r, o) := subprocess_run cmd (os w) in
    (r, World o (ran w ++ [cmd]) (printed w)).

Definition print_if (text : string) : eff world unit :=
  if negb (String.eqb text "") then print text else eret tt.

Definition run_command (cmd : list string) (description : string) : eff world bool :=
  let* _ := print ("Running " +:+ description +:+ "...") in
  etry
    (let* result := call_subprocess_run cmd in
     if (returncode result =? 0)%Z then
       let* _ := print ("✓ " +:+ description +:+ " passed") in
       eret true
     else
       let* _ := print ("✗ " +:+ description +:+ " failed") in
       let* _ := print_if (stdout result) in
       let* _ := print_if (stderr result) in
       eret false)
    (fun e =>
       let* _ := print ("✗ " +:+ description +:+ " failed with error: " +:+ exn_msg e) in
       eret false).

Definition commands : list (list string * string) :=
  [(["uv"; "run"; "flake8"; "backend/"; "--max-line-length=88"; "--extend-ignore=E203,W503"],
    "Style checking (flake8)");
   (["uv"; "run"; "mypy"; "backend/"; "--ignore-missing-imports"], "Type checking (mypy)")].

(** The loop of [main] over the commands, counting the successes. *)
Fixpoint run_commands (cmds : list (list string * string)) (success_count : nat)
    : eff world nat :=
  match cmds with
  | [] => eret success_count
  | (cmd, description) :: cmds' =>
      let* ok := run_command cmd description in
      run_commands cmds' (if ok then S success_count else success_count)
  end.

Definition main : eff world Z :=
  let* _ := print "🔍 Running code linting tools..." in
  let total_count := List.length commands in
  let* success_count := run_commands commands 0 in
  let* _ := print (Py.nl +:+ "📊 Linting complete: " +:+ pretty success_count +:+ "/"
                   +:+ pretty total_count +:+ " tools passed") in
  if Nat.eqb success_count total_count then
    let* _ := print "🎉 All linting checks passed!" in
    eret 0%Z
  else
    let* _ := print "❌ Some linting checks failed" in
    eret 1%Z.


End Script.

(** A machine on which flake8 reports findings and mypy is not installed. *)
Definition demo_subprocess_run (cmd : list string) : eff unit completed :=
  if decide (cmd !! 2 = Some "flake8")
  then eret (Completed 1 "backend/app.py:1:1: F401 unused import" "")
  else eraise (Exn "FileNotFoundError" "No such file or directory: 'uv'").

End LintScript.

(** * Properties *)

(** ** Strings *)

Lemma prefix_append (s t : string) : String.prefix s (s +:+ t) = true.
Proof.
  induction s as [|c s IH]; simpl.
  - by destruct t.
  - destruct (Ascii.ascii_dec c c) as [_|Hne]; [exact IH | by destruct Hne].
Qed.

Lemma prefix_refl (s : string) : String.prefix s s = true.
Proof.
  induction s as [|c s IH]; simpl; [done|].
  destruct (Ascii.ascii_dec c c) as [_|Hne]; [exact IH | by destruct Hne].
Qed.

Lemma contains_prefix (sub s : string) : String.prefix sub s = true -> Py.contains sub s = true.
Proof. intros H. destruct s; cbn [Py.contains]; by rewrite H. Qed.

Lemma contains_append_r (sub a s : string) :
  Py.contains sub s = true -> Py.contains sub (a +:+ s) = true.
Proof.
  intros H. induction a as [|c a IH]; [done|].
  change (Py.contains sub (String c (a +:+ s)) = true).
  cbn [Py.contains]. fold Py.contains. rewrite IH. apply orb_true_r.
Qed.

Lemma contains_append (sub a b : string) : Py.contains sub (a +:+ sub +:+ b) = true.
Proof. apply contains_append_r, contains_prefix, prefix_append. Qed.

(** ** The tool layer and the registry *)

Module SearchToolsFacts.

Import SearchTools.

Section RegistryFacts.

Context {S : Type} (store : VectorStore S) (json_loads : string -> option (list lesson)).


Lemma dict_get_set (k : string) (t : tool) (d : list (string * tool)) :
  dict_get k (dict_set k t d) = Some t.
Proof.
  induction d as [|[k' t'] d IH]; simpl.
  - by rewrite String.eqb_refl.
  - destruct (String.eqb k k') eqn:E; simpl; [by rewrite String.eqb_refl | by rewrite E].
Qed.

Lemma dict_set_same (k : string) (t : tool) (d : list (string * tool)) :
  dict_get k d = Some t -> dict_set k t d = d.
Proof.
  induction d as [|[k' t'] d IH]; simpl; [done|].
  destruct (String.eqb k k') eqn:E.
  - apply String.eqb_eq in E. by intros [= ->]; subst.
  - intros H. by rewrite IH.
Qed.

(** A search without hits, or with an error, returns its message and
    leaves the tool object as it was. *)
Lemma search_without_hits (query course_name lesson_number : value) (t : tool) (s s1 : S)
    (results : SearchResults) :
  search store query course_name lesson_number s = (inr results, s1) ->
  Py.truthy_str (error results) || is_empty results = true ->
  CourseSearchTool_execute store query course_name lesson_number (t, s)
    = (inr (if Py.truthy_str (error results) then default "" (error results)
            else "No relevant content found" +:+ filter_info course_name lesson_number +:+ "."),
       (t, s1)).
Proof.
  intros Hs Hno. unfold CourseSearchTool_execute, ebind, on_snd. simpl. rewrite Hs.
  destruct (Py.truthy_str (error results)); [done|].
  simpl in Hno. by rewrite Hno.
Qed.

(** The message of an empty search names the filters that are truthy. *)
Lemma filter_info_truthy (course_name lesson_number : value) :
  Py.truthy course_name = true -> Py.truthy lesson_number = true ->
  filter_info course_name lesson_number
    = (" in course '" +:+ Py.str course_name +:+ "'") +:+ (" in lesson " +:+ Py.str lesson_number).
Proof. intros Hc Hl. unfold filter_info. by rewrite Hc, Hl. Qed.

(** C8. After [reset_sources] the session log is empty, every registered
    tool that has a [last_sources] attribute holds the empty list, so
    [get_last_sources] returns the empty list too; the registered tools are
    the same as before. *)
Theorem reset_sources_clears (tm : ToolManager) :
  get_all_sources_from_session (reset_sources tm) = []
  /\ (forall name t, (name, t) ∈ tools (reset_sources tm) ->
        last_sources t = None \/ last_sources t = Some [])
  /\ get_last_sources (reset_sources tm) = []
  /\ map fst (tools (reset_sources tm)) = map fst (tools tm)
  /\ map (fun kt => impl kt.2) (tools (reset_sources tm)) = map (fun kt => impl kt.2) (tools tm).
Proof.
  destruct tm as [d ss]. unfold get_all_sources_from_session, get_last_sources, reset_sources.
  simpl. split; [done|]. split; [|split; [|split]].
  - intros name t Hin. apply list_elem_of_fmap in Hin as ([k t0] & [= -> ->] & _).
    simpl. unfold reset_tool. destruct (last_sources t0) eqn:E; simpl; auto.
  - induction d as [|[k t] d IH]; simpl; [done|].
    unfold reset_tool. destruct (last_sources t) eqn:E; simpl; [done | by rewrite E].
  - induction d as [|[k t] d IH]; simpl; [done | by rewrite IH].
  - induction d as [|[k t] d IH]; simpl; [done|]. rewrite IH. f_equal.
    unfold reset_tool. by destruct (last_sources t).
Qed.

(** C10. When [execute_tool] on a registered tool returns, the session log
    has grown by the whole [last_sources] list that the tool holds after
    the call.  A search that ends in an error string or in no hits leaves
    that list as it was, so the citations of an earlier call are appended
    once more. *)
Theorem execute_tool_extends_session (tm tm' : ToolManager) (s s' : S) (tool_name : string)
    (kw : kwargs) (t : tool) (result : string) :
  dict_get tool_name (tools tm) = Some t ->
  execute_tool store json_loads tool_name kw (tm, s) = (inr result, (tm', s')) ->
  (exists t',
     execute store json_loads kw (t, s) = (inr result, (t', s'))
     /\ dict_get tool_name (tools tm') = Some t'
     /\ session_sources tm' = session_sources tm ++ default [] (last_sources t'))
  /\ (forall results s1,
       impl t = CourseSearchTool ->
       search store (kw_default "query" kw) (kw_default "course_name" kw)
         (kw_default "lesson_number" kw) s = (inr results, s1) ->
       Py.truthy_str (error results) || is_empty results = true ->
       dict_get tool_name (tools tm') = Some t
       /\ session_sources tm' = session_sources tm ++ default [] (last_sources t)).
Proof.
  intros Hget Hex. unfold execute_tool in Hex. simpl in Hex. rewrite Hget in Hex.
  destruct (execute store json_loads kw (t, s)) as [r [t' s1']] eqn:E.
  destruct r as [e|res]; [done|]. injection Hex as <- <- <-.
  split.
  { exists t'. simpl. split; [done|]. split; [apply dict_get_set|].
    destruct (last_sources t'); simpl; [done | by rewrite app_nil_r]. }
  intros results s1 Himpl Hs Hno. simpl.
  unfold execute, ebind, eget in E. simpl in E. rewrite Himpl in E.
  unfold bind_arguments in E.
  destruct (check_keywords _ _ kw) as [e|]; [done|].
  destruct (Py.kw_get "query" kw) as [q|]; [|done].
  unfold eret in E at 1.
  rewrite (search_without_hits _ _ _ t s s1 results Hs Hno) in E.
  injection E as _ <- _.
  split; [apply dict_get_set|].
  destruct (last_sources t); simpl; [done | by rewrite app_nil_r].
Qed.

(** C9. An unresolvable course name gives [No course found matching
    '<name>'] and leaves the tool's citations as they were; a resolved
    course whose metadata the catalog finds gives the outline in its fixed
    format and leaves exactly one citation, the one of the course
    outline. *)
Theorem outline_execute_cases (course_name : value) (t : tool) (s : S) :
  (forall r s1,
     _resolve_course_name store course_name s = (inr r, s1) ->
     Py.truthy_str r = false ->
     CourseOutlineTool_execute store json_loads course_name (t, s)
       = (inr ("No course found matching '" +:+ Py.str course_name +:+ "'"), (t, s1))
     /\ Py.contains ("No course found matching '" +:+ Py.str course_name +:+ "'")
          ("No course found matching '" +:+ Py.str course_name +:+ "'") = true)
  /\ (forall resolved s1 md rest s2,
       _resolve_course_name store course_name s = (inr (Some resolved), s1) ->
       resolved <> "" ->
       course_catalog_get store resolved s1 = (inr (Some (GetResult (Some (md :: rest)))), s2) ->
       let course := default "Unknown Course" (title md) in
       let link := default "" (course_link md) in
       let lessons := default [] (json_loads (default "[]" (lessons_json md))) in
       CourseOutlineTool_execute store json_loads course_name (t, s)
         = (inr (String.concat Py.nl
                   (spec_outline_lines course (default "" (instructor md)) link lessons)),
            (set_last_sources (Some [Source (course +:+ " - Course Outline") (Some link)]) t,
             s2))).
Proof.
  split.
  - intros r s1 Hres Hfalsy. split.
    + unfold CourseOutlineTool_execute, ebind, on_snd. simpl. rewrite Hres, Hfalsy. done.
    + apply contains_prefix, prefix_refl.
  - intros resolved s1 md rest s2 Hres Hne Hget course link lessons.
    unfold CourseOutlineTool_execute, ebind, on_snd. simpl. rewrite Hres. simpl.
    destruct (String.eqb resolved "") eqn:E; [by apply String.eqb_eq in E|]. simpl.
    unfold etry, ebind, on_snd. simpl. rewrite Hget.
    unfold _format_outline, ebind, emodify, eret. simpl.
    f_equal. f_equal. unfold spec_outline_lines.
    fold course link lessons. simpl.
    destruct (decide (default "" (instructor md) = "")) as [->|Hi];
      destruct (decide (link = "")) as [->|Hl]; simpl.
    all: repeat match goal with
         | H : ?x <> "" |- context [String.eqb ?x ""] =>
             let E := fresh in destruct (String.eqb x "") eqn:E;
               [by apply String.eqb_eq in E|]; clear E
         end; simpl.
    all: destruct lessons as [|l ls]; simpl; done.
Qed.

End RegistryFacts.


(** C6. The search tool on an empty result with the course filter ["X"]
    and the lesson filter [0]: the message names the course and leaves
    the lesson filter out. *)
Theorem search_no_hits_lesson_zero :
  CourseSearchTool_execute demo_store (VStr "pricing") (VStr "X") (VInt 0)
    (new_CourseSearchTool, tt)
  = (inr "No relevant content found in course 'X'.", (new_CourseSearchTool, tt)).
Proof. reflexivity. Qed.

(** The same search with the lesson filter 3 names both filters. *)
Example search_no_hits_course_X_lesson_3 :
  CourseSearchTool_execute demo_store (VStr "pricing") (VStr "X") (VInt 3)
    (new_CourseSearchTool, tt)
  = (inr "No relevant content found in course 'X' in lesson 3.", (new_CourseSearchTool, tt)).
Proof. reflexivity. Qed.

(** The formatter, the sibling path, does show lesson 0. *)
Example search_hit_lesson_zero :
  CourseSearchTool_execute demo_store (VStr "intro") VNone (VInt 0) (new_CourseSearchTool, tt)
  = (inr ("[MCP - Lesson 0]" +:+ Py.nl +:+ "Welcome to MCP"),
     (Tool CourseSearchTool (Some [demo_source]), tt)).
Proof. reflexivity. Qed.

Lemma execute_tool_extends_session_witness :
  dict_get "search_course_content" (tools demo_manager_1)
    = Some (Tool CourseSearchTool (Some [demo_source]))
  /\ demo_execute_tool "search_course_content" [("query", VStr "pricing")] (demo_manager_1, tt)
     = (inr "No relevant content found.", (demo_manager_2, tt))
  /\ session_sources demo_manager_1 = [demo_source]
  /\ session_sources demo_manager_2 = [demo_source; demo_source].
Proof.
  assert (H1 : dict_get "search_course_content" (tools demo_manager_1)
               = Some (Tool CourseSearchTool (Some [demo_source]))) by reflexivity.
  assert (H2 : demo_execute_tool "search_course_content" [("query", VStr "pricing")]
                 (demo_manager_1, tt)
               = (inr "No relevant content found.", (demo_manager_2, tt))) by reflexivity.
  split; [exact H1|]. split; [exact H2|]. split; [reflexivity|].
  destruct (execute_tool_extends_session demo_store demo_json_loads _ _ _ _ _ _ _ _ H1 H2)
    as [_ Hsame].
  destruct (Hsame {| documents := []; metadata := []; error := None |} tt) as [_ Hlog];
    [reflexivity | reflexivity | reflexivity |].
  exact Hlog.
Defined.

Lemma outline_execute_cases_witness :
  CourseOutlineTool_execute demo_store demo_json_loads (VStr "Zzz") (new_CourseOutlineTool, tt)
    = (inr "No course found matching 'Zzz'", (new_CourseOutlineTool, tt))
  /\ CourseOutlineTool_execute demo_store demo_json_loads (VStr "MCP") (new_CourseOutlineTool, tt)
     = (inr (String.concat Py.nl
               ["Course: MCP"; "Instructor: Ada"; "Course Link: https://example.com/mcp";
                Py.nl +:+ "Lessons:"; "  Lesson 0: Introduction"]),
        (Tool CourseOutlineTool
           (Some [Source "MCP - Course Outline" (Some "https://example.com/mcp")]), tt)).
Proof.
  destruct (outline_execute_cases demo_store demo_json_loads (VStr "Zzz") new_CourseOutlineTool tt)
    as [Hmiss _].
  destruct (outline_execute_cases demo_store demo_json_loads (VStr "MCP") new_CourseOutlineTool tt)
    as [_ Hfound].
  split.
  - apply (Hmiss None tt); reflexivity.
  - apply (Hfound "MCP" tt
             (CourseMeta (Some "MCP") (Some "https://example.com/mcp") (Some "Ada") (Some "lessons"))
             [] tt); [reflexivity | discriminate | reflexivity].
Defined.

End SearchToolsFacts.

(** ** The orchestrator *)

Module AIGeneratorFacts.

Import AIGenerator.

Section OrchestratorFacts.

Context {ToolDef CS TMS : Type}.
Variable create : api_params ToolDef -> eff CS response.
Variable self_model : string.

Abbreviation frame := (AIGenerator.frame ToolDef CS TMS).
Abbreviation executor := (AIGenerator.executor TMS).

(** *** The retry wrapper *)

Lemma retry_trace_zero (p : api_params ToolDef) (a : nat) : retry_trace p a 0 = [EvCreate a p].
Proof. unfold retry_trace. simpl. by rewrite Nat.add_0_r. Qed.

Lemma retry_trace_succ (p : api_params ToolDef) (a k : nat) :
  retry_trace p a (S k) = EvCreate a p :: EvSleep (2 ^ a) :: retry_trace p (S a) k.
Proof. unfold retry_trace. simpl. by rewrite Nat.add_succ_r. Qed.

Lemma retry_from_spec (p : api_params ToolDef) (remaining : nat) :
  forall (a : nat) (f : frame),
  exists k,
    k <= remaining
    /\ (forall i, i < k -> exists e,
          (create p (client_after create p (client f) i)).1 = inl e
          /\ is_transient_api_error e = true)
    /\ retry_from create p remaining a f
       = ((create p (client_after create p (client f) k)).1,
          Frame (client_after create p (client f) (S k)) (tool_manager_state f)
                (trace f ++ retry_trace p a k) (local_messages f) (local_response f))
    /\ (forall e, (create p (client_after create p (client f) k)).1 = inl e ->
          k = remaining \/ is_transient_api_error e = false).
Proof.
  induction remaining as [|remaining IH]; intros a f.
  - exists 0. split; [lia|]. split; [intros i Hi; lia|]. split; [|by left].
    simpl. unfold ebind, attempt_, call_create, log. simpl.
    rewrite retry_trace_zero.
    by destruct (create p (client f)) as [[e|r] c].
  - destruct (create p (client f)) as [[e|r] c] eqn:E.
    + destruct (is_transient_api_error e) eqn:T.
      * destruct (IH (S a) (log (EvSleep (2 ^ a)) (log (EvCreate a p)
                   (Frame c (tool_manager_state f) (trace f) (local_messages f)
                      (local_response f))))) as (k & Hk & Hprev & Hrun & Hlast).
        simpl in Hprev, Hrun, Hlast.
        exists (S k). split; [lia|]. split; [|split].
        -- intros [|i] Hi; simpl; rewrite E; simpl.
           ++ by exists e.
           ++ apply Hprev. lia.
        -- simpl. unfold ebind at 1. unfold attempt_, call_create. rewrite E. simpl. rewrite T.
           unfold ebind at 1. unfold sleep, emodify. rewrite Hrun.
           rewrite retry_trace_succ. by rewrite <- !app_assoc.
        -- simpl. rewrite E. simpl. intros e' He'. destruct (Hlast e' He') as [->|Hnt]; auto.
      * exists 0. split; [lia|]. split; [intros i Hi; lia|]. split.
        -- simpl. unfold ebind, attempt_, call_create, log. rewrite E. simpl. rewrite T.
           by rewrite retry_trace_zero.
        -- simpl. rewrite E. simpl. intros e' [= <-]. by right.
    + exists 0. split; [lia|]. split; [intros i Hi; lia|]. split.
      * simpl. unfold ebind, attempt_, call_create, log. rewrite E. simpl.
        by rewrite retry_trace_zero.
      * simpl. rewrite E. simpl. done.
Qed.

(** *** Counting events *)

Lemma requests_app (d1 d2 : list (event ToolDef)) :
  requests (d1 ++ d2) = requests d1 + requests d2.
Proof. unfold requests. by rewrite List.filter_app, List.length_app. Qed.

Lemma create_calls_app (d1 d2 : list (event ToolDef)) :
  create_calls (d1 ++ d2) = create_calls d1 + create_calls d2.
Proof. unfold create_calls. by rewrite List.filter_app, List.length_app. Qed.

Lemma retries_app (d1 d2 : list (event ToolDef)) :
  retries (d1 ++ d2) = retries d1 + retries d2.
Proof. unfold retries. by rewrite List.filter_app, List.length_app. Qed.

Lemma requests_cons (ev : event ToolDef) (d : list (event ToolDef)) :
  requests (ev :: d) = (if is_request ev then 1 else 0) + requests d.
Proof. unfold requests. simpl. by destruct (is_request ev). Qed.

Lemma create_calls_cons (ev : event ToolDef) (d : list (event ToolDef)) :
  create_calls (ev :: d) = (if is_create ev then 1 else 0) + create_calls d.
Proof. unfold create_calls. simpl. by destruct (is_create ev). Qed.


Lemma trace_ok_nil (Q : api_params ToolDef -> Prop) (n : nat) : trace_ok Q n [].
Proof. split; [|split]; [unfold requests; simpl; lia | reflexivity | constructor]. Qed.

Lemma trace_ok_app (Q : api_params ToolDef -> Prop) (n1 n2 : nat) (d1 d2 : list (event ToolDef)) :
  trace_ok Q n1 d1 -> trace_ok Q n2 d2 -> trace_ok Q (n1 + n2) (d1 ++ d2).
Proof.
  intros (H1 & H2 & H3) (K1 & K2 & K3). unfold trace_ok. split_and!.
  - rewrite requests_app. lia.
  - rewrite create_calls_app, requests_app, retries_app. lia.
  - by apply Forall_app.
Qed.

Lemma trace_ok_weaken (Q : api_params ToolDef -> Prop) (n1 n2 : nat) (d : list (event ToolDef)) :
  n1 <= n2 -> trace_ok Q n1 d -> trace_ok Q n2 d.
Proof. intros Hle (H1 & H2 & H3). unfold trace_ok. split_and!; [lia | done | done]. Qed.

Lemma retry_trace_counts (p : api_params ToolDef) (k : nat) :
  forall a,
    requests (retry_trace p a k) = (if a is 0 then 1 else 0)
    /\ create_calls (retry_trace p a k) = S k
    /\ retries (retry_trace p a k) = k
    /\ sleeps (retry_trace p a k) = map (Nat.pow 2) (seq a k)
    /\ forall (Q : api_params ToolDef -> Prop), Q p -> Forall (on_create Q) (retry_trace p a k).
Proof.
  induction k as [|k IH]; intros a.
  - rewrite retry_trace_zero. split_and!; try done.
    + by destruct a.
    + intros Q HQ. by repeat constructor.
  - rewrite retry_trace_succ. destruct (IH (S a)) as (H1 & H2 & H3 & H4 & H5).
    change (EvCreate a p :: EvSleep (2 ^ a) :: retry_trace p (S a) k)
      with ([EvCreate a p; EvSleep (2 ^ a)] ++ retry_trace p (S a) k).
    rewrite requests_app, create_calls_app, retries_app, H1, H2, H3.
    split_and!.
    + by destruct a.
    + done.
    + done.
    + unfold sleeps in *. simpl. by rewrite H4.
    + intros Q HQ. apply Forall_app. split; [by repeat constructor | by apply H5].
Qed.

Lemma retry_trace_ok (Q : api_params ToolDef -> Prop) (p : api_params ToolDef) (k : nat) :
  Q p -> trace_ok Q 1 (retry_trace p 0 k).
Proof.
  intros HQ. destruct (retry_trace_counts p k 0) as (H1 & H2 & H3 & _ & H5).
  unfold trace_ok. split_and!; [lia | lia | by apply H5].
Qed.

(** One call of the wrapper: it adds one model request to the trace and
    touches neither the tool manager nor the locals. *)
Lemma api_call_frame (Q : api_params ToolDef -> Prop) (p : api_params ToolDef) (n : nat)
    (f : frame) :
  Q p ->
  exists res c delta,
    _api_call_with_retry create p n f
      = (res, Frame c (tool_manager_state f) (trace f ++ delta)
                (local_messages f) (local_response f))
    /\ trace_ok Q 1 delta.
Proof.
  intros HQ. destruct (retry_from_spec p n 0 f) as (k & _ & _ & Hrun & _).
  eexists _, _, _. split; [exact Hrun|]. by apply retry_trace_ok.
Qed.

(** A request that the model answers at once. *)
Lemma api_call_answered (p : api_params ToolDef) (n : nat) (f : frame) (r : response) (c : CS) :
  create p (client f) = (inr r, c) ->
  _api_call_with_retry create p n f
    = (inr r, Frame c (tool_manager_state f) (trace f ++ [EvCreate 0 p])
                (local_messages f) (local_response f)).
Proof.
  intros E. unfold _api_call_with_retry.
  destruct n; simpl; unfold ebind, attempt_, call_create, log; by rewrite E.
Qed.

(** An error outside the transient signature leaves the wrapper at once. *)
Lemma api_call_other_error (p : api_params ToolDef) (n : nat) (f : frame) (e : exn) (c : CS) :
  create p (client f) = (inl e, c) ->
  is_transient_api_error e = false ->
  _api_call_with_retry create p n f
    = (inl e, Frame c (tool_manager_state f) (trace f ++ [EvCreate 0 p])
                (local_messages f) (local_response f)).
Proof.
  intros E T. unfold _api_call_with_retry.
  destruct n; simpl; unfold ebind, attempt_, call_create, log; rewrite E; simpl; by rewrite ?T.
Qed.

(** C7. One call of [_api_call_with_retry] makes [k + 1] attempts for some
    [k] up to [max_retries]: each of the first [k] attempts raised an error
    with the transient signature and was followed by a sleep of [2 ^ attempt]
    seconds (1, 2, 4, ...); the outcome of the last attempt is the outcome
    of the call, and when that is an error, either the retries are used up
    or the error is outside the signature.  An error outside the signature
    at the first attempt is raised at once: one attempt, no sleep. *)
Theorem api_call_with_retry_backoff (p : api_params ToolDef) (max_retries : nat) (f : frame) :
  (exists k,
    k <= max_retries
    /\ (forall i, i < k -> exists e,
          (create p (client_after create p (client f) i)).1 = inl e
          /\ is_transient_api_error e = true)
    /\ _api_call_with_retry create p max_retries f
       = ((create p (client_after create p (client f) k)).1,
          Frame (client_after create p (client f) (S k)) (tool_manager_state f)
                (trace f ++ retry_trace p 0 k) (local_messages f) (local_response f))
    /\ (forall e, (create p (client_after create p (client f) k)).1 = inl e ->
          k = max_retries \/ is_transient_api_error e = false)
    /\ create_calls (retry_trace p 0 k) = S k
    /\ sleeps (retry_trace p 0 k) = map (Nat.pow 2) (seq 0 k))
  /\ (forall e c,
        create p (client f) = (inl e, c) ->
        is_transient_api_error e = false ->
        _api_call_with_retry create p max_retries f
          = (inl e, Frame c (tool_manager_state f) (trace f ++ [EvCreate 0 p])
                      (local_messages f) (local_response f))).
Proof.
  split.
  - destruct (retry_from_spec p max_retries 0 f) as (k & Hk & Hprev & Hrun & Hlast).
    destruct (retry_trace_counts p k 0) as (_ & Hc & _ & Hs & _).
    exists k. by split_and!.
  - intros e c E T. by apply api_call_other_error.
Qed.

(** *** The tool runner of a round *)

Lemma trace_ok_tool (Q : api_params ToolDef -> Prop) (name : string) (input : kwargs) :
  trace_ok Q 0 [EvExecuteTool name input].
Proof. split; [|split]; [unfold requests; simpl; lia | reflexivity | by repeat constructor]. Qed.

(** The runner never raises; it touches neither the client nor the locals,
    makes no model request, and a list of results that it returns answers
    the tool requests of the blocks one by one. *)
Lemma run_blocks_frame (Q : api_params ToolDef -> Prop) (ex : executor)
    (blocks : list content_block) :
  forall (acc : list tool_result) (f : frame),
  exists o m delta,
    run_blocks ex blocks acc f
      = (inr o, Frame (client f) m (trace f ++ delta) (local_messages f) (local_response f))
    /\ trace_ok Q 0 delta
    /\ (forall rs, o = Some rs ->
          map tool_use_id rs = map tool_use_id acc ++ tool_use_ids blocks
          /\ delta = tool_calls blocks).
Proof.
  induction blocks as [|b blocks IH]; intros acc f.
  - exists (match acc with [] => None | _ :: _ => Some acc end), (tool_manager_state f), [].
    split_and!.
    + simpl. unfold eret. rewrite app_nil_r. by destruct f.
    + apply trace_ok_nil.
    + intros rs Hrs. simpl. rewrite app_nil_r. by destruct acc; simplify_eq.
  - destruct b as [text|id name input].
    + destruct (IH acc f) as (o & m & delta & Hrun & Hok & Hres).
      exists o, m, delta. by split_and!.
    + simpl. unfold ebind at 1. unfold attempt_, call_execute_tool.
      destruct (ex name input (tool_manager_state f)) as [[e|r] m1] eqn:E.
      * destruct (is_transient_tool_error e) eqn:T.
        -- exists None, m1, [EvExecuteTool name input]. split_and!; [done | | done].
           apply trace_ok_tool.
        -- set (f1 := log _ _).
           destruct (IH (acc ++ [ToolResult id ("Tool execution failed: " +:+ exn_msg e)]) f1)
             as (o & m & delta & Hrun & Hok & Hres).
           exists o, m, (EvExecuteTool name input :: delta). split_and!.
           ++ rewrite Hrun. subst f1. simpl. by rewrite <- app_assoc.
           ++ apply (trace_ok_app Q 0 0 [_] delta); [apply trace_ok_tool | done].
           ++ intros rs Hrs. destruct (Hres rs Hrs) as [Hids ->]. split; [|done].
              rewrite Hids, map_app. simpl. by rewrite <- app_assoc.
      * set (f1 := log _ _).
        destruct (IH (acc ++ [ToolResult id r]) f1) as (o & m & delta & Hrun & Hok & Hres).
        exists o, m, (EvExecuteTool name input :: delta). split_and!.
        -- rewrite Hrun. subst f1. simpl. by rewrite <- app_assoc.
        -- apply (trace_ok_app Q 0 0 [_] delta); [apply trace_ok_tool | done].
        -- intros rs Hrs. destruct (Hres rs Hrs) as [Hids ->]. split; [|done].
           rewrite Hids, map_app. simpl. by rewrite <- app_assoc.
Qed.

(** *** The shape of the round state *)

Lemma closed_snoc_assistant (rest : list message) (bs : list content_block) :
  closed rest -> opened (rest ++ [Message "assistant" (Blocks bs)]) bs.
Proof. induction 1; simpl; by constructor. Qed.

Lemma opened_snoc_user (rest : list message) (bs : list content_block) (rs : list tool_result) :
  opened rest bs -> map tool_use_id rs = tool_use_ids bs ->
  closed (rest ++ [Message "user" (ToolResults rs)]).
Proof. induction 1; intros Hids; simpl; constructor; auto. constructor. Qed.

Lemma closed_last (seed : message) (rest : list message) :
  closed rest -> role seed = "user" ->
  exists m, last (seed :: rest) = Some m /\ role m = "user".
Proof.
  intros H. revert seed. induction H as [|bs rs rest Hids H IH]; intros seed Hseed.
  - by exists seed.
  - destruct (IH (Message "user" (ToolResults rs)) eq_refl) as (m & Hm & Hr).
    exists m. split; [|done]. rewrite <- Hm. by destruct rest.
Qed.

Lemma opened_last_role (seed : message) (rest : list message) (bs : list content_block) :
  opened rest bs ->
  last (seed :: rest) = Some (Message "assistant" (Blocks bs)).
Proof.
  intros H. revert seed. induction H as [bs|bs rs rest bs' Hids H IH]; intros seed; [done|].
  rewrite <- (IH (Message "user" (ToolResults rs))). by destruct rest.
Qed.

Lemma length_tool_use_ids (bs : list content_block) :
  List.length (tool_use_ids bs) = List.length (List.filter is_tool_use bs).
Proof. induction bs as [|[t|i n k] bs IH]; simpl; [done | done | by rewrite IH]. Qed.

Lemma turns_ok_round (bs : list content_block) (rs : list tool_result) (rest : list message) :
  map tool_use_id rs = tool_use_ids bs -> turns_ok rest ->
  turns_ok (Message "assistant" (Blocks bs) :: Message "user" (ToolResults rs) :: rest).
Proof.
  intros Hids (H1 & H2 & H3). split_and!.
  - intros [|[|i]] m Hm; simpl in *; simplify_eq; [done | done | by apply H1].
  - intros [|[|i]] m Hm He; simpl in *; simplify_eq; [by eexists | by eapply H2].
  - intros [|[|i]] m Hm He; simpl in *; simplify_eq; [by eexists _, _ | by eapply H3].
Qed.

Lemma closed_turns_ok (rest : list message) : closed rest -> turns_ok rest.
Proof.
  induction 1 as [|bs rs rest Hids H IH].
  - split_and!; intros i m Hm; by destruct i.
  - by apply turns_ok_round.
Qed.

Lemma opened_turns_ok (rest : list message) (bs : list content_block) :
  opened rest bs -> turns_ok rest.
Proof.
  induction 1 as [bs|bs rs rest bs' Hids H IH].
  - split_and!.
    + intros [|[|i]] m Hm; simpl in *; by simplify_eq.
    + intros [|[|i]] m Hm He; simpl in *; simplify_eq; by eexists.
    + intros [|[|i]] m Hm He; simpl in *; by simplify_eq.
  - by apply turns_ok_round.
Qed.

Lemma shape_well_formed (query : string) (msgs : list message) :
  shape query msgs -> well_formed_conversation query msgs.
Proof.
  intros (rest & -> & Hrest).
  assert (Hok : turns_ok rest).
  { destruct Hrest as [H|[bs H]]; [by apply closed_turns_ok | by eapply opened_turns_ok]. }
  destruct Hok as (H1 & H2 & H3). split_and!.
  - done.
  - intros [|i] m Hm; simpl in Hm; [by simplify_eq|].
    rewrite (H1 i m Hm), Nat.even_succ. unfold Nat.odd. by destruct (Nat.even i).
  - intros [|i] m Hm He; [done|]. simpl in Hm.
    rewrite Nat.even_succ in He. unfold Nat.odd in He.
    apply (H2 i m Hm). by destruct (Nat.even i).
  - intros i m Hm He. simpl in Hm.
    destruct (H3 i m Hm He) as (rs & bs & Hc & Hprev & Hids).
    exists rs, bs. split_and!; [done | done | done |].
    rewrite <- length_tool_use_ids, <- Hids. by rewrite length_map.
Qed.

Lemma well_formed_take (query : string) (msgs : list message) (n : nat) :
  0 < n -> well_formed_conversation query msgs ->
  well_formed_conversation query (take n msgs).
Proof.
  intros Hn (H0 & H1 & H2 & H3). split_and!.
  - rewrite lookup_take_lt; [done | lia].
  - intros i m Hm. apply lookup_take_Some in Hm as [Hm _]. by apply H1.
  - intros i m Hm. apply lookup_take_Some in Hm as [Hm _]. by apply H2.
  - intros i m Hm He. apply lookup_take_Some in Hm as [Hm Hlt].
    destruct (H3 i m Hm He) as (rs & bs & Hc & Hprev & Hids & Hlen).
    exists rs, bs. split_and!; try done. rewrite lookup_take_lt; [done | lia].
Qed.

(** *** The round loop *)

(** One turn of the loop, spelled out on frames. *)
Lemma rounds_succ (sc : string) (ts : option (list ToolDef)) (tm : option executor)
    (n : nat) (f : frame) :
  rounds create self_model sc ts tm (S n) f
  = match _api_call_with_retry create (round_params self_model sc ts (local_messages f)) 2 f with
    | (inl e, f1) => (inl e, f1)
    | (inr r, f1) =>
        let f2 := set_locals
                    (local_messages f1 ++ [Message "assistant" (Blocks (response_content r))])
                    (Some r) f1 in
        match (if String.eqb (stop_reason r) "tool_use" then tm else None) with
        | Some ex =>
            match _execute_tools_for_round r ex f2 with
            | (inr (Some rs), f3) =>
                rounds create self_model sc ts tm n
                  (set_locals (local_messages f3 ++ [Message "user" (ToolResults rs)])
                     (local_response f3) f3)
            | (inr None, f3) => (inr tt, f3)
            | (inl e, f3) => (inl e, f3)
            end
        | None => (inr tt, f2)
        end
    end.
Proof.
  cbn [rounds]. unfold ebind at 1. unfold eget. unfold ebind at 1.
  destruct (_api_call_with_retry _ _ _ f) as [[e|r] f1]; [done|].
  unfold ebind at 1. unfold assign_response, emodify. unfold ebind at 1.
  unfold append_message, emodify. cbn [local_messages set_locals local_response].
  destruct (if String.eqb (stop_reason r) "tool_use" then tm else None) as [ex|]; [|done].
  unfold ebind at 1.
  destruct (_execute_tools_for_round r ex _) as [[e|[rs|]] f3]; [done | | done].
  unfold ebind at 1. done.
Qed.

Lemma rounds_zero (sc : string) (ts : option (list ToolDef)) (tm : option executor) (f : frame) :
  rounds create self_model sc ts tm 0 f = (inr tt, f).
Proof. reflexivity. Qed.

Lemma rounds_spec (query sc : string) (ts : option (list ToolDef)) (tm : option executor)
    (n : nat) :
  forall (f : frame) (rest : list message),
    local_messages f = Message "user" (Query query) :: rest ->
    closed rest ->
    exists delta,
      trace (rounds create self_model sc ts tm n f).2 = trace f ++ delta
      /\ trace_ok (round_request query sc ts) n delta
      /\ shape query (local_messages (rounds create self_model sc ts tm n f).2).
Proof.
  induction n as [|n IH]; intros f rest Hmsgs Hclosed.
  - exists []. simpl. rewrite app_nil_r. split_and!; [done | apply trace_ok_nil |].
    exists rest. split; [done | by left].
  - rewrite rounds_succ.
    assert (HQ : round_request query sc ts (round_params self_model sc ts (local_messages f))).
    { split_and!; [|done | by left]. exists rest. split; [done | by left]. }
    destruct (api_call_frame _ _ 2 f HQ) as (res & c & d1 & Hrun & Hok1).
    rewrite Hrun. destruct res as [e|r].
    { exists d1. simpl. split_and!; [done | |].
      - apply (trace_ok_weaken _ 1); [lia | done].
      - exists rest. split; [done | by left]. }
    cbn zeta. cbn [local_messages set_locals client tool_manager_state trace local_response].
    assert (Hopen : opened (rest ++ [Message "assistant" (Blocks (response_content r))])
                      (response_content r)) by by apply closed_snoc_assistant.
    destruct (if String.eqb (stop_reason r) "tool_use" then tm else None) as [ex|].
    2:{ exists d1. simpl. split_and!; [done | |].
        - apply (trace_ok_weaken _ 1); [lia | done].
        - rewrite Hmsgs. eexists. split; [reflexivity|]. right. by eexists. }
    unfold _execute_tools_for_round.
    match goal with |- context [run_blocks ex ?bs [] ?f2] =>
      destruct (run_blocks_frame (round_request query sc ts) ex bs [] f2)
        as (o & m & d2 & Hblocks & Hok2 & Hres)
    end.
    rewrite Hblocks. cbn [local_messages client tool_manager_state trace local_response].
    destruct o as [rs|].
    2:{ exists (d1 ++ d2). simpl. split_and!; [by rewrite app_assoc | |].
        - apply (trace_ok_weaken _ (1 + 0)); [lia | by apply trace_ok_app].
        - rewrite Hmsgs. eexists. split; [reflexivity|]. right. by eexists. }
    destruct (Hres rs eq_refl) as [Hids _]. simpl in Hids.
    match goal with |- context [rounds _ _ _ _ _ n ?f3] =>
      destruct (IH f3 ((rest ++ [Message "assistant" (Blocks (response_content r))])
                       ++ [Message "user" (ToolResults rs)]))
        as (d3 & Htr & Hok3 & Hshape)
    end.
    { cbn [local_messages set_locals]. by rewrite Hmsgs. }
    { by eapply opened_snoc_user. }
    exists (d1 ++ d2 ++ d3). split_and!.
    + rewrite Htr. cbn [trace set_locals]. by rewrite <- !app_assoc.
    + apply (trace_ok_app _ 1 n); [done|].
      by apply (trace_ok_app _ 0 n).
    + done.
Qed.

Lemma run_rounds_spec (query : string) (hist : option string) (ts : option (list ToolDef))
    (tm : option executor) (max_rounds : Z) (f : frame) :
  exists delta,
    trace (run_rounds create self_model query hist ts tm max_rounds f).2 = trace f ++ delta
    /\ trace_ok (round_request query (system_content_of hist) ts) (Z.to_nat max_rounds) delta
    /\ shape query (local_messages (run_rounds create self_model query hist ts tm max_rounds f).2).
Proof.
  unfold run_rounds, ebind, emodify.
  destruct (rounds_spec query (system_content_of hist) ts tm (Z.to_nat max_rounds)
              (set_locals [Message "user" (Query query)] None f) [] eq_refl closed_nil)
    as (delta & Htr & Hok & Hshape).
  exists delta. by split_and!.
Qed.

(** The part after the loop makes at most one request, without tool
    definitions, and leaves the round state as it is. *)
Lemma finish_spec (query : string) (hist : option string) (ts : option (list ToolDef))
    (f : frame) :
  shape query (local_messages f) ->
  exists delta,
    trace (finish create self_model hist f).2 = trace f ++ delta
    /\ trace_ok (fun p => round_request query (system_content_of hist) ts p /\ tools p = None)
         1 delta
    /\ local_messages (finish create self_model hist f).2 = local_messages f.
Proof.
  intros Hshape. unfold finish, ebind, eget.
  destruct (last (local_messages f)) as [m|].
  2:{ exists []. simpl. rewrite app_nil_r. split_and!; [done | apply trace_ok_nil | done]. }
  destruct (String.eqb (role m) "user").
  - set (p := final_params _ _ _).
    assert (HQ : round_request query (system_content_of hist) ts p /\ tools p = None).
    { split; [|done]. split_and!; [done | done | by right]. }
    destruct (api_call_frame
                (fun p => round_request query (system_content_of hist) ts p /\ tools p = None)
                p 2 f HQ) as (res & c & delta & Hrun & Hok).
    rewrite Hrun. exists delta.
    destruct res as [e|r]; [by split_and!|].
    destruct (response_content r) as [|[text|id name input] bs]; by split_and!.
  - exists []. rewrite app_nil_r.
    destruct (local_response f) as [r|].
    + destruct (response_content r) as [|[text|id name input] bs];
        (split_and!; [done | apply trace_ok_nil | done]).
    + split_and!; [done | apply trace_ok_nil | done].
Qed.

(** *** Rounds whose tools all return, and rounds cut short *)




(** A tool that raises an error with the transient signature makes the
    runner return [None]; only tool calls are added to the trace. *)
Lemma run_blocks_transient (ex : executor) (blocks : list content_block) (m : TMS) :
  raises_transient ex blocks m ->
  forall (acc : list tool_result) (f : frame),
    tool_manager_state f = m ->
    exists m' calls,
      run_blocks ex blocks acc f
        = (inr None, Frame (client f) m' (trace f ++ calls) (local_messages f) (local_response f))
      /\ requests calls = 0 /\ create_calls calls = 0.
Proof.
  induction 1 as [text blocks m H IH|id name input blocks m e m' E T
                 |id name input blocks m r m' E H IH|id name input blocks m e m' E T H IH];
    intros acc f Hm.
  - by apply IH.
  - exists m', [EvExecuteTool name input].
    simpl. unfold ebind at 1. unfold attempt_, call_execute_tool. rewrite Hm, E. simpl.
    by rewrite T.
  - simpl. unfold ebind at 1. unfold attempt_, call_execute_tool. rewrite Hm, E.
    set (f1 := log _ _).
    destruct (IH (acc ++ [ToolResult id r]) f1 eq_refl) as (m2 & calls & Hrun & Hr & Hc).
    exists m2, (EvExecuteTool name input :: calls). rewrite Hrun. subst f1. simpl.
    rewrite <- !app_assoc. done.
  - simpl. unfold ebind at 1. unfold attempt_, call_execute_tool. rewrite Hm, E. simpl.
    rewrite T. set (f1 := log _ _).
    destruct (IH (acc ++ [ToolResult id ("Tool execution failed: " +:+ exn_msg e)]) f1 eq_refl)
      as (m2 & calls & Hrun & Hr & Hc).
    exists m2, (EvExecuteTool name input :: calls). rewrite Hrun. subst f1. simpl.
    rewrite <- !app_assoc. done.
Qed.

(** *** The whole call *)

Lemma generate_response_spec (query : string) (hist : option string)
    (ts : option (list ToolDef)) (tm : option executor) (max_rounds : Z) (f : frame) :
  exists loop_events final_events,
    trace (run_rounds create self_model query hist ts tm max_rounds f).2 = trace f ++ loop_events
    /\ trace (generate_response create self_model query hist ts tm max_rounds f).2
       = trace f ++ loop_events ++ final_events
    /\ trace_ok (round_request query (system_content_of hist) ts) (Z.to_nat max_rounds)
         loop_events
    /\ trace_ok (fun p => round_request query (system_content_of hist) ts p /\ tools p = None)
         1 final_events
    /\ shape query
         (local_messages (generate_response create self_model query hist ts tm max_rounds f).2).
Proof.
  destruct (run_rounds_spec query hist ts tm max_rounds f) as (d1 & Htr1 & Hok1 & Hshape1).
  unfold generate_response, ebind.
  destruct (run_rounds create self_model query hist ts tm max_rounds f) as [[e|[]] f1].
  - exists d1, []. simpl in *. rewrite app_nil_r. split_and!; try done. apply trace_ok_nil.
  - simpl in Htr1, Hshape1.
    destruct (finish_spec query hist ts f1 Hshape1) as (d2 & Htr2 & Hok2 & Hmsgs).
    exists d1, d2. cbn [snd]. split_and!; try done.
    + by rewrite Htr2, Htr1, app_assoc.
    + by rewrite Hmsgs.
Qed.

(** C1. With a round budget [N >= 1], a call of [generate_response] makes
    at most [N + 1] model requests: at most [N] in the round loop and at
    most one after it, which carries no tool definitions.  Every further
    call of [create] is a retry of one of these requests after a backoff
    sleep. *)
Theorem generate_response_request_bound (query : string) (hist : option string)
    (ts : option (list ToolDef)) (tm : option executor) (N : Z) (f : frame) :
  (1 <= N)%Z ->
  exists loop_events final_events,
    trace (run_rounds create self_model query hist ts tm N f).2 = trace f ++ loop_events
    /\ trace (generate_response create self_model query hist ts tm N f).2
       = trace f ++ loop_events ++ final_events
    /\ (Z.of_nat (requests loop_events) <= N)%Z
    /\ requests final_events <= 1
    /\ Forall (on_create (fun p => tools p = None)) final_events
    /\ (Z.of_nat (requests (loop_events ++ final_events)) <= N + 1)%Z
    /\ create_calls (loop_events ++ final_events)
       = requests (loop_events ++ final_events) + retries (loop_events ++ final_events).
Proof.
  intros HN.
  destruct (generate_response_spec query hist ts tm N f)
    as (d1 & d2 & Htr1 & Htr2 & (Hr1 & Hc1 & _) & (Hr2 & Hc2 & Hall2) & _).
  exists d1, d2. split_and!; try done.
  - lia.
  - eapply Forall_impl; [exact Hall2|]. intros [a p| |]; simpl; tauto.
  - rewrite requests_app. lia.
  - rewrite create_calls_app, requests_app, retries_app. lia.
Qed.

(** C4. Whatever the model and the tools do, the round state of a call is
    well formed at its end, in every request that the call sent, and in
    every non-empty prefix of the final list (the list only grows at its
    end): the roles alternate from the seeded user query on, and every
    tool-result turn is a user turn that holds one result for each tool
    request of the assistant turn before it. *)
Theorem round_state_well_formed (query : string) (hist : option string)
    (ts : option (list ToolDef)) (tm : option executor) (max_rounds : Z) (f : frame) :
  well_formed_conversation query
    (local_messages (generate_response create self_model query hist ts tm max_rounds f).2)
  /\ (forall n, 0 < n ->
        well_formed_conversation query
          (take n (local_messages
                     (generate_response create self_model query hist ts tm max_rounds f).2)))
  /\ (exists delta,
        trace (generate_response create self_model query hist ts tm max_rounds f).2
          = trace f ++ delta
        /\ forall a p, EvCreate a p ∈ delta -> well_formed_conversation query (messages p)).
Proof.
  destruct (generate_response_spec query hist ts tm max_rounds f)
    as (d1 & d2 & _ & Htr2 & (_ & _ & Hall1) & (_ & _ & Hall2) & Hshape).
  apply shape_well_formed in Hshape. split_and!.
  - done.
  - intros n Hn. by apply well_formed_take.
  - exists (d1 ++ d2). split; [done|]. intros a p Hin.
    apply elem_of_app in Hin as [Hin|Hin].
    + rewrite Forall_forall in Hall1. specialize (Hall1 _ Hin). simpl in Hall1.
      apply shape_well_formed, Hall1.
    + rewrite Forall_forall in Hall2. specialize (Hall2 _ Hin). simpl in Hall2.
      apply shape_well_formed, Hall2.
Qed.

#[local] Arguments rounds : simpl never.
#[local] Arguments _api_call_with_retry : simpl never.
#[local] Arguments run_blocks : simpl never.
#[local] Arguments round_params : simpl never.
#[local] Arguments final_params : simpl never.
#[local] Arguments system_content_of : simpl never.


(** C3 (amended). When a tool of round 1 raises an error with the
    transient signature, the call makes no further model request, neither
    a second round nor a synthesis request, and returns the text of the
    first block of the round-1 answer (here a text block). *)
Theorem transient_tool_error_ends_rounds (query : string) (hist : option string)
    (ts : option (list ToolDef)) (ex : executor) (N : Z) (f : frame)
    (r1 : response) (c1 : CS) (text : string) (more : list content_block) :
  (1 <= N)%Z ->
  create (round_params self_model (system_content_of hist) ts [Message "user" (Query query)])
    (client f) = (inr r1, c1) ->
  stop_reason r1 = "tool_use" ->
  raises_transient ex (response_content r1) (tool_manager_state f) ->
  response_content r1 = TextBlock text :: more ->
  exists m' calls,
    let p1 := round_params self_model (system_content_of hist) ts
                [Message "user" (Query query)] in
    generate_response create self_model query hist ts (Some ex) N f
      = (inr text,
         Frame c1 m' (trace f ++ EvCreate 0 p1 :: calls)
           [Message "user" (Query query); Message "assistant" (Blocks (response_content r1))]
           (Some r1))
    /\ requests (EvCreate 0 p1 :: calls) = 1
    /\ create_calls (EvCreate 0 p1 :: calls) = 1.
Proof.
  intros HN Hc Hs Ht Htext.
  destruct (Z.to_nat N) as [|n] eqn:EN; [lia|].
  unfold generate_response, run_rounds. unfold ebind at 1 2. unfold emodify. rewrite EN.
  rewrite rounds_succ, (api_call_answered _ 2 (set_locals _ _ f) r1 c1 Hc).
  simpl. rewrite Hs. simpl. unfold _execute_tools_for_round.
  match goal with |- context [run_blocks ex ?bs [] ?f2] =>
    destruct (run_blocks_transient ex bs _ Ht [] f2 eq_refl) as (m' & calls & Hrun & Hr & Hk)
  end.
  simpl in Hrun. rewrite Hrun.
  unfold finish. unfold ebind at 1. unfold eget. simpl. rewrite Htext. simpl.
  exists m', calls. cbn zeta. split_and!.
  - by rewrite <- app_assoc.
  - rewrite requests_cons, Hr. done.
  - rewrite create_calls_cons, Hk. done.
Qed.

End OrchestratorFacts.

(** *** Runs on the scripted client *)

(** Two transient failures, then an answer: sleeps of 1 and 2 seconds. *)
Example retry_then_answer :
  let out := demo_retry [inl (Exn "APIError" "Rate limit exceeded");
                         inl (Exn "APIError" "Network unreachable");
                         inr demo_final] in
  out.1 = inr demo_final
  /\ sleeps (trace out.2) = [1; 2]
  /\ create_calls (trace out.2) = 3 /\ requests (trace out.2) = 1.
Proof. vm_compute. by split_and!. Qed.

(** The model keeps failing with a rate limit: the third failure is
    raised. *)
Example retry_exhausted :
  let e := Exn "Exception" "API Error: Rate limit exceeded" in
  let out := demo_retry [inl e; inl e; inl e; inr demo_final] in
  out.1 = inl e /\ sleeps (trace out.2) = [1; 2] /\ create_calls (trace out.2) = 3
  /\ client out.2 = [inr demo_final].
Proof. vm_compute. by split_and!. Qed.

(** Any other error is raised by the first attempt. *)
Example no_retry_on_other_error :
  let e := Exn "AuthenticationError" "Invalid API key" in
  let out := demo_retry [inl e; inr demo_final] in
  out.1 = inl e /\ sleeps (trace out.2) = [] /\ create_calls (trace out.2) = 1.
Proof. vm_compute. by split_and!. Qed.

Lemma generate_response_request_bound_witness :
  (1 <= 2)%Z
  /\ exists loop_events final_events,
      trace (run_rounds (ToolDef := string) scripted_create demo_model "query" None demo_tools
               (Some (counting_execute_tool "Tool result")) 2
               (Frame demo_script 0 [] [] None)).2 = [] ++ loop_events
      /\ trace (generate_response (ToolDef := string) scripted_create demo_model "query" None
                  demo_tools (Some (counting_execute_tool "Tool result")) 2
                  (Frame demo_script 0 [] [] None)).2 = [] ++ loop_events ++ final_events
      /\ (Z.of_nat (requests loop_events) <= 2)%Z
      /\ requests final_events <= 1
      /\ Forall (on_create (fun p => tools p = None)) final_events
      /\ (Z.of_nat (requests (loop_events ++ final_events)) <= 2 + 1)%Z
      /\ create_calls (loop_events ++ final_events)
         = requests (loop_events ++ final_events) + retries (loop_events ++ final_events).
Proof.
  split; [lia|].
  apply (generate_response_request_bound scripted_create demo_model "query" None demo_tools
           (Some (counting_execute_tool "Tool result")) 2 (Frame demo_script 0 [] [] None)).
  lia.
Defined.

(** The run of the test: three requests, two tool calls, the third answer
    returned. *)
Example demo_two_rounds_run :
  demo_two_rounds.1 = inr "Here's the comprehensive information about lesson 3..."
  /\ requests (trace demo_two_rounds.2) = 3
  /\ create_calls (trace demo_two_rounds.2) = 3
  /\ tool_executions (trace demo_two_rounds.2) = 2
  /\ tool_manager_state demo_two_rounds.2 = 2
  /\ client demo_two_rounds.2 = [].
Proof. vm_compute. by split_and!. Qed.


(** C3, as stated, fails on this run: the tool of round 1 hits a rate
    limit, and the call returns the sentence that came with the tool
    request.  Its only model request is the one of round 1, with the tool
    definitions; the answer scripted for a synthesis request is never
    asked for. *)
Lemma transient_tool_error_no_synthesis :
  demo_rate_limited.1 = inr "Let me look that up."
  /\ demo_rate_limited.1 <> inr "Here's the comprehensive information about lesson 3..."
  /\ client demo_rate_limited.2 = [inr demo_final]
  /\ create_calls (trace demo_rate_limited.2) = 1
  /\ Forall (on_create (fun p => tools p = demo_tools)) (trace demo_rate_limited.2).
Proof.
  vm_compute. split_and!; try done. repeat constructor.
Qed.

Lemma transient_tool_error_ends_rounds_witness :
  demo_rate_limited.1 = inr "Let me look that up.".
Proof.
  destruct (transient_tool_error_ends_rounds scripted_create demo_model
              "What is in lesson 3?" None demo_tools scripted_execute_tool 2
              (demo_frame [inr demo_tool_use_with_text; inr demo_final]
                          [inl (Exn "Exception" "Rate limit exceeded, retry later")])
              demo_tool_use_with_text [inr demo_final] "Let me look that up."
              [ToolUseBlock "tool_1" "search_course_content" [("query", VStr "lesson 3")]])
    as (m' & calls & Hrun & _).
  - lia.
  - reflexivity.
  - reflexivity.
  - apply rt_text. eapply rt_here; reflexivity.
  - reflexivity.
  - unfold demo_rate_limited, demo_generate_response. cbv zeta in Hrun. by rewrite Hrun.
Defined.

End AIGeneratorFacts.

(** ** More on the tool layer and the registry *)

Module SearchToolsExtra.

Import SearchTools SearchToolsFacts.

(** *** The dict of tools *)

Lemma dict_get_set_ne (k k' : string) (t : tool) (d : list (string * tool)) :
  k' <> k -> dict_get k' (dict_set k t d) = dict_get k' d.
Proof.
  intros Hne. induction d as [|[k0 t0] d IH]; simpl.
  - destruct (String.eqb k' k) eqn:E; [by apply String.eqb_eq in E | done].
  - destruct (String.eqb k k0) eqn:E; simpl.
    + apply String.eqb_eq in E as <-.
      destruct (String.eqb k' k) eqn:E'; [by apply String.eqb_eq in E' | done].
    + by rewrite IH.
Qed.

Lemma dict_get_None_keys (k : string) (d : list (string * tool)) :
  dict_get k d = None <-> k ∉ map fst d.
Proof.
  induction d as [|[k0 t0] d IH]; simpl.
  - split; [intros _; apply not_elem_of_nil | done].
  - destruct (String.eqb k k0) eqn:E.
    + apply String.eqb_eq in E as <-. split; [done|]. intros H. destruct H. by left.
    + apply String.eqb_neq in E. rewrite IH, not_elem_of_cons. tauto.
Qed.

Lemma dict_get_Some_elem (k : string) (t : tool) (d : list (string * tool)) :
  dict_get k d = Some t -> (k, t) ∈ d.
Proof.
  induction d as [|[k0 t0] d IH]; simpl; [done|].
  destruct (String.eqb k k0) eqn:E.
  - apply String.eqb_eq in E as <-. intros [= ->]. by left.
  - intros H. right. by apply IH.
Qed.

Lemma keys_dict_set_old (k : string) (t t0 : tool) (d : list (string * tool)) :
  dict_get k d = Some t0 -> map fst (dict_set k t d) = map fst d.
Proof.
  induction d as [|[k0 t1] d IH]; simpl; [done|].
  destruct (String.eqb k k0) eqn:E; simpl.
  - apply String.eqb_eq in E as <-. done.
  - intros H. by rewrite IH.
Qed.

Lemma keys_dict_set_new (k : string) (t : tool) (d : list (string * tool)) :
  dict_get k d = None -> map fst (dict_set k t d) = map fst d ++ [k].
Proof.
  induction d as [|[k0 t1] d IH]; simpl; [done|].
  destruct (String.eqb k k0) eqn:E; simpl; [done|].
  intros H. by rewrite IH.
Qed.

Lemma dict_set_Forall (P : string * tool -> Prop) (k : string) (t : tool)
    (d : list (string * tool)) :
  Forall P d -> P (k, t) -> Forall P (dict_set k t d).
Proof.
  intros Hd Hk. induction Hd as [|[k0 t0] d H0 Hd IH]; simpl.
  - by repeat constructor.
  - destruct (String.eqb k k0); by constructor.
Qed.

Lemma keys_dict_set_NoDup (k : string) (t : tool) (d : list (string * tool)) :
  NoDup (map fst d) -> NoDup (map fst (dict_set k t d)).
Proof.
  intros Hd. destruct (dict_get k d) as [t0|] eqn:E.
  - by rewrite (keys_dict_set_old k t t0 d E).
  - rewrite (keys_dict_set_new k t d E). apply NoDup_app. split_and!; [done | |].
    + intros x Hx Hk. apply list_elem_of_singleton in Hk as ->.
      by apply dict_get_None_keys in E.
    + apply NoDup_singleton.
Qed.

(** *** [register_tool] *)

(** X1. [register_tool] refuses a tool whose definition has no name (or
    an empty one) with a [ValueError] and changes nothing.  A tool with a
    name is stored under it: looking the name up gives this tool (the last
    registration wins), every other name, the order of the names already
    there and the session log stay as they were, and a new name goes last. *)
Theorem register_tool_lookup (t : tool) (tm : ToolManager) :
  (Py.truthy_str (definition_name t) = false ->
     register_tool t tm
       = (inl (Exn "ValueError" "Tool must have a 'name' in its definition"), tm))
  /\ (forall name,
       definition_name t = Some name -> name <> "" ->
       exists tm',
         register_tool t tm = (inr tt, tm')
         /\ dict_get name (tools tm') = Some t
         /\ (forall k, k <> name -> dict_get k (tools tm') = dict_get k (tools tm))
         /\ session_sources tm' = session_sources tm
         /\ map fst (tools tm')
            = map fst (tools tm) ++ (if dict_get name (tools tm) is Some _ then [] else [name])).
Proof.
  split.
  - intros H. unfold register_tool. by rewrite H.
  - intros name Hname Hne. unfold register_tool, emodify. rewrite Hname. simpl.
    destruct (String.eqb name "") eqn:E; [by apply String.eqb_eq in E|]. simpl.
    eexists. split; [reflexivity|]. simpl. split_and!.
    + apply dict_get_set.
    + intros k Hk. by apply dict_get_set_ne.
    + done.
    + destruct (dict_get name (tools tm)) as [t0|] eqn:G.
      * rewrite app_nil_r. by eapply keys_dict_set_old.
      * by apply keys_dict_set_new.
Qed.

Lemma register_tool_lookup_witness :
  register_tool nameless_tool demo_manager
    = (inl (Exn "ValueError" "Tool must have a 'name' in its definition"), demo_manager)
  /\ exists tm',
       register_tool echo_tool demo_manager = (inr tt, tm')
       /\ dict_get "echo" (tools tm') = Some echo_tool
       /\ (forall k, k <> "echo" -> dict_get k (tools tm') = dict_get k (tools demo_manager))
       /\ session_sources tm' = session_sources demo_manager
       /\ map fst (tools tm')
          = ["search_course_content"; "get_course_outline"] ++ ["echo"].
Proof.
  destruct (register_tool_lookup nameless_tool demo_manager) as [Hrefuse _].
  destruct (register_tool_lookup echo_tool demo_manager) as [_ Hstore].
  split; [by apply Hrefuse|].
  apply (Hstore "echo"); [reflexivity | discriminate].
Defined.

Section StoreFacts.

Context {S : Type} (store : VectorStore S) (json_loads : string -> option (list lesson)).

(** *** What [execute] does to the tool object *)

Lemma search_execute_impl (query course_name lesson_number : value) (t : tool) (s : S) :
  impl (CourseSearchTool_execute store query course_name lesson_number (t, s)).2.1 = impl t.
Proof.
  unfold CourseSearchTool_execute, ebind, on_snd. simpl.
  destruct (search store query course_name lesson_number s) as [[e|results] s1]; [done|].
  destruct (Py.truthy_str (error results)); [done|].
  destruct (is_empty results); [done|].
  unfold _format_results, ebind, on_snd, emodify. simpl.
  by destruct (format_hits store _ [] [] s1) as [[e|[fm src]] s2].
Qed.

Lemma outline_execute_impl (course_name : value) (t : tool) (s : S) :
  impl (CourseOutlineTool_execute store json_loads course_name (t, s)).2.1 = impl t.
Proof.
  unfold CourseOutlineTool_execute, ebind, on_snd. simpl.
  destruct (_resolve_course_name store course_name s) as [[e|r] s1]; [done|].
  destruct (Py.truthy_str r); [|done]. simpl.
  unfold etry, ebind, on_snd. simpl.
  destruct (course_catalog_get store (default "" r) s1) as [[e|res] s2]; [done|].
  by destruct res as [[[[|md rest]|]]|].
Qed.

Lemma execute_impl (kw : kwargs) (t : tool) (s : S) :
  impl (execute store json_loads kw (t, s)).2.1 = impl t.
Proof.
  unfold execute, ebind, eget. simpl.
  destruct (impl t) as [| |name run] eqn:E.
  - unfold bind_arguments. destruct (check_keywords _ _ kw); [done|].
    destruct (Py.kw_get "query" kw); [|done].
    unfold eret at 1. by rewrite search_execute_impl.
  - unfold bind_arguments. destruct (check_keywords _ _ kw); [done|].
    destruct (Py.kw_get "course_name" kw); [|done].
    unfold eret at 1. by rewrite outline_execute_impl.
  - match goal with |- context [let '(_, _) := ?x in _] => destruct x end. simpl. done.
Qed.

(** *** The registry across its operations *)

(** X2. The registry invariant (no name twice, every name the non-empty
    name of its tool's definition) holds for a new manager and is kept by
    [register_tool], by [execute_tool] whatever its outcome, and by
    [reset_sources].  Under it the names that [get_tool_definitions]
    advertises are the keys in order, and each of them is found by
    [execute_tool]'s lookup, with the tool that advertises it. *)
Theorem registry_invariant (tm : ToolManager) (s : S) :
  registry_ok new_ToolManager
  /\ (registry_ok tm ->
      (forall t, registry_ok (register_tool t tm).2)
      /\ (forall name kw, registry_ok (execute_tool store json_loads name kw (tm, s)).2.1)
      /\ registry_ok (reset_sources tm)
      /\ advertised_names tm = map Some (map fst (tools tm))
      /\ (forall k, k ∈ map fst (tools tm) ->
            exists t, dict_get k (tools tm) = Some t /\ definition_name t = Some k)).
Proof.
  split; [split; constructor|].
  intros [Hnd Hall]. split_and!.
  - intros t. unfold register_tool.
    destruct (Py.truthy_str (definition_name t)) eqn:E; [|by split].
    destruct (definition_name t) as [name|] eqn:En; [|done]. simpl in *.
    split; simpl.
    + by apply keys_dict_set_NoDup.
    + apply dict_set_Forall; [done|]. simpl. split; [|done].
      intros ->. done.
  - intros name kw. unfold execute_tool. simpl.
    destruct (dict_get name (tools tm)) as [t|] eqn:G; [|by split].
    pose proof (execute_impl kw t s) as Himpl.
    destruct (execute store json_loads kw (t, s)) as [r [t' s']]. simpl in Himpl.
    assert (Hok : NoDup (map fst (dict_set name t' (tools tm)))
                  /\ Forall (fun kt : string * tool =>
                               kt.1 <> "" /\ definition_name kt.2 = Some kt.1)
                       (dict_set name t' (tools tm))).
    { split; [by apply keys_dict_set_NoDup|].
      apply dict_set_Forall; [done|].
      apply dict_get_Some_elem in G. rewrite Forall_forall in Hall.
      destruct (Hall _ G) as [Hne Hdef]. simpl in *. split; [done|].
      unfold definition_name in *. by rewrite Himpl. }
    by destruct r.
  - split; simpl.
    + by rewrite <- list_fmap_compose.
    + apply Forall_fmap. eapply Forall_impl; [exact Hall|].
      intros [k t] [Hne Hdef]. simpl in *. split; [done|].
      unfold reset_tool. by destruct (last_sources t).
  - unfold advertised_names. rewrite <- list_fmap_compose.
    apply list_eq_Forall2, Forall2_fmap, Forall_Forall2_diag.
    eapply Forall_impl; [exact Hall|]. by intros [k t] [_ Hdef].
  - intros k Hk. destruct (dict_get k (tools tm)) as [t|] eqn:G.
    + exists t. split; [done|]. apply dict_get_Some_elem in G.
      rewrite Forall_forall in Hall. by destruct (Hall _ G) as [_ Hdef].
    + by apply dict_get_None_keys in G.
Qed.

(** X3. A call of [execute_tool], whatever its outcome, keeps the names
    of the registry and every tool object other than the one called, and it
    only ever extends the session log at its end; when the call raises,
    the log is exactly as before. *)
Theorem execute_tool_frame (name : string) (kw : kwargs) (tm : ToolManager) (s : S) :
  map fst (tools (execute_tool store json_loads name kw (tm, s)).2.1) = map fst (tools tm)
  /\ (forall k, k <> name ->
        dict_get k (tools (execute_tool store json_loads name kw (tm, s)).2.1)
          = dict_get k (tools tm))
  /\ session_sources tm `prefix_of`
       session_sources (execute_tool store json_loads name kw (tm, s)).2.1
  /\ (forall e, (execute_tool store json_loads name kw (tm, s)).1 = inl e ->
        session_sources (execute_tool store json_loads name kw (tm, s)).2.1
          = session_sources tm).
Proof.
  unfold execute_tool. simpl.
  destruct (dict_get name (tools tm)) as [t|] eqn:G; [|by split_and!].
  destruct (execute store json_loads kw (t, s)) as [[e|result] [t' s']]; simpl.
  - split_and!; [by eapply keys_dict_set_old | | done | done].
    intros k Hk. by apply dict_get_set_ne.
  - split_and!; [by eapply keys_dict_set_old | | | done].
    + intros k Hk. by apply dict_get_set_ne.
    + destruct (last_sources t'); [by apply prefix_app_r | done].
Qed.

(** X4. [get_last_sources] returns the list of the first tool, in
    registration order, whose [last_sources] is not empty, whatever later
    tools hold; it returns the empty list exactly when no tool holds a
    citation. *)
Theorem get_last_sources_first (tm : ToolManager) :
  (get_last_sources tm = [] <-> Forall (fun kt : string * tool => no_sources kt.2) (tools tm))
  /\ (forall pre k t post x ls,
        tools tm = pre ++ (k, t) :: post ->
        Forall (fun kt : string * tool => no_sources kt.2) pre ->
        last_sources t = Some (x :: ls) ->
        get_last_sources tm = x :: ls).
Proof.
  unfold get_last_sources. generalize (tools tm). intros d. split.
  - induction d as [|[k t] d IH]; simpl; [by split; [constructor|]|].
    destruct (last_sources t) as [[|x ls]|] eqn:E.
    + rewrite IH. split; [intros H; constructor; [by right | done]|].
      by intros [_ H]%Forall_cons_1.
    + split; [done|]. intros [[H|H] _]%Forall_cons_1; simpl in H; congruence.
    + rewrite IH. split; [intros H; constructor; [by left | done]|].
      by intros [_ H]%Forall_cons_1.
  - intros pre k t post x ls -> Hpre Ht.
    induction Hpre as [|[k0 t0] pre [H0|H0] Hpre IH]; simpl in *; by rewrite ?Ht, ?H0.
Qed.

Lemma dict_get_reset (k : string) (d : list (string * tool)) :
  dict_get k (map (fun kt : string * tool => (kt.1, reset_tool kt.2)) d)
    = reset_tool <$> dict_get k d.
Proof.
  induction d as [|[k0 t0] d IH]; simpl; [done|].
  by destruct (String.eqb k k0).
Qed.

(** X5. After [reset_sources], the first call of [execute_tool] leaves in
    the session log exactly the citations the called tool holds after the
    call; nothing from before the reset comes back, and a call that raises
    or names an unknown tool leaves the log empty. *)
Theorem execute_tool_after_reset (name : string) (kw : kwargs) (tm : ToolManager) (s : S) :
  session_sources (execute_tool store json_loads name kw (reset_sources tm, s)).2.1
  = match (execute_tool store json_loads name kw (reset_sources tm, s)).1,
          dict_get name (tools (execute_tool store json_loads name kw (reset_sources tm, s)).2.1)
    with
    | inr _, Some t' => default [] (last_sources t')
    | _, _ => []
    end.
Proof.
  unfold execute_tool. simpl. rewrite dict_get_reset.
  destruct (dict_get name (tools tm)) as [t|] eqn:G; simpl.
  - destruct (execute store json_loads kw (reset_tool t, s)) as [[e|result] [t' s']]; simpl;
      [done|].
    rewrite dict_get_set. by destruct (last_sources t').
  - by rewrite dict_get_reset, G.
Qed.

(** *** Keyword arguments against the advertised schema *)

Lemma check_keywords_conforms (fname : string) (params : list string) (kw : kwargs) :
  existsb (String.eqb "self") params = false ->
  check_keywords fname params kw = None
  <-> forallb (fun k => existsb (String.eqb k) params) (map fst kw) = true.
Proof.
  intros Hself. induction kw as [|[k v] kw IH]; simpl; [done|].
  destruct (String.eqb k "self") eqn:E.
  - apply String.eqb_eq in E as ->. rewrite Hself. simpl. split; done.
  - destruct (existsb (String.eqb k) params); simpl; [done | split; done].
Qed.

Lemma check_keywords_TypeError (fname : string) (params : list string) (kw : kwargs) (e : exn) :
  check_keywords fname params kw = Some e -> exn_class e = "TypeError".
Proof.
  induction kw as [|[k v] kw IH]; simpl; [done|].
  destruct (String.eqb k "self"); [by intros [= <-]|].
  destruct (existsb (String.eqb k) params); [done | by intros [= <-]].
Qed.

(** X6. The two tools accept exactly the keyword arguments that fit the
    schema they advertise.  Arguments that fit (only declared properties,
    every required one given) reach the tool's body with the absent
    optional ones as [None]; any other arguments raise a [TypeError]
    before the store or the tool's citations are touched.  The name each
    tool is registered under is the name of its definition. *)
Theorem execute_accepts_schema (kw : kwargs) (t : tool) (s : S) :
  (impl t = CourseSearchTool ->
     definition_name t = Some (d_name CourseSearchTool_get_tool_definition)
     /\ if conforms CourseSearchTool_get_tool_definition kw
        then execute store json_loads kw (t, s)
             = CourseSearchTool_execute store (kw_default "query" kw)
                 (kw_default "course_name" kw) (kw_default "lesson_number" kw) (t, s)
        else exists msg, execute store json_loads kw (t, s) = (inl (Exn "TypeError" msg), (t, s)))
  /\ (impl t = CourseOutlineTool ->
       definition_name t = Some (d_name CourseOutlineTool_get_tool_definition)
       /\ if conforms CourseOutlineTool_get_tool_definition kw
          then execute store json_loads kw (t, s)
               = CourseOutlineTool_execute store json_loads (kw_default "course_name" kw) (t, s)
          else exists msg,
                 execute store json_loads kw (t, s) = (inl (Exn "TypeError" msg), (t, s))).
Proof.
  split; intros Himpl; (split; [unfold definition_name; by rewrite Himpl|]).
  - pose proof (check_keywords_conforms "CourseSearchTool.execute"
                  ["query"; "course_name"; "lesson_number"] kw eq_refl) as Hck.
    unfold conforms, execute, ebind, eget, bind_arguments. simpl. simpl in Hck. rewrite Himpl.
    destruct (check_keywords _ _ kw) as [e|] eqn:C.
    + destruct (forallb _ (map fst kw)); [destruct Hck as [_ Hck]; by specialize (Hck eq_refl)|].
      simpl.
      apply check_keywords_TypeError in C. destruct e as [c msg]. simpl in C. subst c.
      by exists msg.
    + rewrite (proj1 Hck eq_refl). simpl.
      destruct (Py.kw_get "query" kw) as [q|]; simpl; [done | by eexists].
  - pose proof (check_keywords_conforms "CourseOutlineTool.execute"
                  ["course_name"] kw eq_refl) as Hck.
    unfold conforms, execute, ebind, eget, bind_arguments. simpl. simpl in Hck. rewrite Himpl.
    destruct (check_keywords _ _ kw) as [e|] eqn:C.
    + destruct (forallb _ (map fst kw)); [destruct Hck as [_ Hck]; by specialize (Hck eq_refl)|].
      simpl.
      apply check_keywords_TypeError in C. destruct e as [c msg]. simpl in C. subst c.
      by exists msg.
    + rewrite (proj1 Hck eq_refl). simpl.
      destruct (Py.kw_get "course_name" kw) as [q|]; simpl; [done | by eexists].
Qed.

(** *** The citations of the search tool *)



(** *** The failures of the outline tool *)

(** X8. [CourseOutlineTool.execute] raises only what the course-name
    resolver raises.  Once the resolver has returned, every outcome of the
    catalog, an exception included, ends in a returned string, and the
    tool's citations are either untouched or replaced by a single one. *)
Theorem outline_execute_raises_only_from_resolver (course_name : value) (t : tool) (s : S) :
  (forall e s1,
     _resolve_course_name store course_name s = (inl e, s1) ->
     CourseOutlineTool_execute store json_loads course_name (t, s) = (inl e, (t, s1)))
  /\ (forall r s1,
       _resolve_course_name store course_name s = (inr r, s1) ->
       exists text t' s',
         CourseOutlineTool_execute store json_loads course_name (t, s) = (inr text, (t', s'))
         /\ (t' = t \/ exists src, t' = set_last_sources (Some [src]) t)).
Proof.
  split.
  - intros e s1 Hres. unfold CourseOutlineTool_execute, ebind, on_snd. simpl. by rewrite Hres.
  - intros r s1 Hres. unfold CourseOutlineTool_execute, ebind, on_snd. simpl. rewrite Hres.
    destruct (Py.truthy_str r); simpl; [|eexists _, _, _; split; [done | by left]].
    unfold etry, ebind, on_snd. simpl.
    destruct (course_catalog_get store (default "" r) s1) as [[e|res] s2];
      [eexists _, _, _; split; [done | by left]|].
    destruct res as [[[[|md rest]|]]|]; try (eexists _, _, _; split; [done | by left]).
    unfold _format_outline, ebind, emodify, eret. simpl.
    eexists _, _, _. split; [done|]. right. by eexists.
Qed.

(** X9. For a resolved course, a catalog lookup that raises gives the
    string [Error retrieving course outline: <message>], and a lookup that
    finds no metadata gives [Course metadata not found for '<title>'],
    with the resolved title; both leave the tool's citations as they
    were. *)
Theorem outline_execute_soft_failures (course_name : value) (t : tool) (s s1 s2 : S)
    (resolved : string) :
  _resolve_course_name store course_name s = (inr (Some resolved), s1) ->
  resolved <> "" ->
  (forall e,
     course_catalog_get store resolved s1 = (inl e, s2) ->
     CourseOutlineTool_execute store json_loads course_name (t, s)
       = (inr ("Error retrieving course outline: " +:+ exn_msg e), (t, s2)))
  /\ (forall res,
       course_catalog_get store resolved s1 = (inr res, s2) ->
       res = None \/ res = Some (GetResult None) \/ res = Some (GetResult (Some [])) ->
       CourseOutlineTool_execute store json_loads course_name (t, s)
         = (inr ("Course metadata not found for '" +:+ resolved +:+ "'"), (t, s2))).
Proof.
  intros Hres Hne.
  assert (Htruthy : String.eqb resolved "" = false) by by apply String.eqb_neq.
  split.
  - intros e Hget. unfold CourseOutlineTool_execute, ebind, on_snd. simpl. rewrite Hres. simpl.
    rewrite Htruthy. simpl. unfold etry, ebind, on_snd. simpl. by rewrite Hget.
  - intros res Hget Hcase. unfold CourseOutlineTool_execute, ebind, on_snd. simpl.
    rewrite Hres. simpl. rewrite Htruthy. simpl. unfold etry, ebind, on_snd. simpl.
    rewrite Hget. by destruct Hcase as [->|[->| ->]].
Qed.

End StoreFacts.

Lemma outline_execute_soft_failures_witness :
  CourseOutlineTool_execute broken_store demo_json_loads (VStr "MCP") (new_CourseOutlineTool, tt)
  = (inr "Error retrieving course outline: catalog unavailable", (new_CourseOutlineTool, tt)).
Proof.
  destruct (outline_execute_soft_failures broken_store demo_json_loads (VStr "MCP")
              new_CourseOutlineTool tt tt tt "MCP" eq_refl ltac:(discriminate)) as [Hraise _].
  by apply (Hraise (Exn "RuntimeError" "catalog unavailable")).
Defined.

(** A link lookup that raises: the search raises and the citations of the
    tool stay. *)
Example search_link_lookup_raises :
  CourseSearchTool_execute broken_store (VStr "intro") VNone VNone
    (Tool CourseSearchTool (Some [demo_source]), tt)
  = (inl (Exn "ConnectionError" "link service unreachable"),
     (Tool CourseSearchTool (Some [demo_source]), tt)).
Proof. reflexivity. Qed.

(** A call without its required argument, and one with an argument the
    schema does not declare. *)
Example execute_refuses_arguments :
  execute demo_store demo_json_loads [("course_name", VStr "MCP")] (new_CourseSearchTool, tt)
  = (inl (Exn "TypeError"
            "CourseSearchTool.execute() missing 1 required positional argument: 'query'"),
     (new_CourseSearchTool, tt))
  /\ execute demo_store demo_json_loads [("course_name", VStr "MCP"); ("limit", VInt 3)]
       (new_CourseOutlineTool, tt)
     = (inl (Exn "TypeError"
               "CourseOutlineTool.execute() got an unexpected keyword argument 'limit'"),
        (new_CourseOutlineTool, tt)).
Proof. split; reflexivity. Qed.

End SearchToolsExtra.

(** ** More on the orchestrator *)

Module AIGeneratorExtra.

Import AIGenerator AIGeneratorFacts.

Section TraceFacts.

Context {ToolDef CS TMS : Type}.
Variable create : api_params ToolDef -> eff CS response.
Variable self_model : string.

Abbreviation frame := (AIGenerator.frame ToolDef CS TMS).
Abbreviation executor := (AIGenerator.executor TMS).

(** *** A property of traces that is kept by concatenation *)

Section TraceInduction.

Variable P : list (event ToolDef) -> Prop.
Hypothesis P_nil : P [].
Hypothesis P_app : forall d1 d2, P d1 -> P d2 -> P (d1 ++ d2).
Hypothesis P_tool : forall name input, P [EvExecuteTool name input].

Lemma api_call_trace (p : api_params ToolDef) (n : nat) (f : frame) :
  (forall k, k <= n -> P (retry_trace p 0 k)) ->
  exists res c delta,
    _api_call_with_retry create p n f
      = (res, Frame c (tool_manager_state f) (trace f ++ delta)
                (local_messages f) (local_response f))
    /\ P delta.
Proof.
  intros HP. destruct (retry_from_spec create p n 0 f) as (k & Hk & _ & Hrun & _).
  eexists _, _, _. split; [exact Hrun | by apply HP].
Qed.

Lemma run_blocks_trace (ex : executor) (blocks : list content_block) :
  forall (acc : list tool_result) (f : frame),
  exists o m delta,
    run_blocks ex blocks acc f
      = (inr o, Frame (client f) m (trace f ++ delta) (local_messages f) (local_response f))
    /\ P delta.
Proof.
  induction blocks as [|[text|id name input] blocks IH]; intros acc f.
  - eexists _, (tool_manager_state f), []. split; [|done].
    simpl. unfold eret. rewrite app_nil_r. by destruct f.
  - apply IH.
  - simpl. unfold ebind at 1. unfold attempt_, call_execute_tool.
    destruct (ex name input (tool_manager_state f)) as [[e|r] m1].
    + destruct (is_transient_tool_error e).
      * eexists None, m1, [EvExecuteTool name input]. by split.
      * set (f1 := log _ _).
        destruct (IH (acc ++ [ToolResult id ("Tool execution failed: " +:+ exn_msg e)]) f1)
          as (o & m & delta & Hrun & HP).
        exists o, m, ([EvExecuteTool name input] ++ delta). split; [|by apply P_app].
        rewrite Hrun. subst f1. simpl. by rewrite <- app_assoc.
    + set (f1 := log _ _).
      destruct (IH (acc ++ [ToolResult id r]) f1) as (o & m & delta & Hrun & HP).
      exists o, m, ([EvExecuteTool name input] ++ delta). split; [|by apply P_app].
      rewrite Hrun. subst f1. simpl. by rewrite <- app_assoc.
Qed.

Lemma rounds_trace (sc : string) (ts : option (list ToolDef)) (tm : option executor) (n : nat) :
  (forall msgs k, k <= 2 -> P (retry_trace (round_params self_model sc ts msgs) 0 k)) ->
  forall f : frame,
  exists delta,
    trace (rounds create self_model sc ts tm n f).2 = trace f ++ delta /\ P delta.
Proof.
  intros HP. induction n as [|n IH]; intros f.
  - exists []. simpl. by rewrite app_nil_r.
  - rewrite rounds_succ.
    destruct (api_call_trace (round_params self_model sc ts (local_messages f)) 2 f (HP _))
      as (res & c & d1 & Hrun & H1).
    rewrite Hrun. destruct res as [e|r]; [by exists d1|].
    cbn zeta. cbn [local_messages set_locals client tool_manager_state trace local_response].
    destruct (if String.eqb (stop_reason r) "tool_use" then tm else None) as [ex|];
      [|by exists d1].
    unfold _execute_tools_for_round.
    match goal with |- context [run_blocks ex ?bs [] ?f2] =>
      destruct (run_blocks_trace ex bs [] f2) as (o & m & d2 & Hblocks & H2)
    end.
    rewrite Hblocks. cbn [local_messages client tool_manager_state trace local_response].
    destruct o as [rs|].
    2:{ exists (d1 ++ d2). simpl. split; [by rewrite app_assoc | by apply P_app]. }
    match goal with |- context [rounds _ _ _ _ _ n ?f3] =>
      destruct (IH f3) as (d3 & Htr & H3)
    end.
    exists (d1 ++ d2 ++ d3). split.
    + rewrite Htr. cbn [trace set_locals]. by rewrite <- !app_assoc.
    + by repeat apply P_app.
Qed.

Lemma finish_trace (hist : option string) (f : frame) :
  (forall msgs k, k <= 2 ->
     P (retry_trace (final_params self_model (system_content_of hist) msgs) 0 k)) ->
  exists delta, trace (finish create self_model hist f).2 = trace f ++ delta /\ P delta.
Proof.
  intros HP. unfold finish, ebind, eget.
  destruct (last (local_messages f)) as [m|]; [|exists []; simpl; by rewrite app_nil_r].
  destruct (String.eqb (role m) "user").
  - destruct (api_call_trace
                (final_params self_model (system_content_of hist) (local_messages f)) 2 f (HP _))
      as (res & c & delta & Hrun & Hd).
    rewrite Hrun. exists delta. destruct res as [e|r]; [done|].
    by destruct (response_content r) as [|[text|id name input] bs].
  - exists []. rewrite app_nil_r. split; [|done].
    destruct (local_response f) as [r|]; [|done].
    by destruct (response_content r) as [|[text|id name input] bs].
Qed.

End TraceInduction.

Lemma generate_response_traces (P1 P2 : list (event ToolDef) -> Prop)
    (query : string) (hist : option string)
    (ts : option (list ToolDef)) (tm : option executor) (max_rounds : Z) (f : frame) :
  P1 [] -> (forall d1 d2, P1 d1 -> P1 d2 -> P1 (d1 ++ d2)) ->
  (forall name input, P1 [EvExecuteTool name input]) ->
  (forall msgs k, k <= 2 ->
     P1 (retry_trace (round_params self_model (system_content_of hist) ts msgs) 0 k)) ->
  P2 [] ->
  (forall msgs k, k <= 2 ->
     P2 (retry_trace (final_params self_model (system_content_of hist) msgs) 0 k)) ->
  exists loop_events final_events,
    trace (run_rounds create self_model query hist ts tm max_rounds f).2 = trace f ++ loop_events
    /\ trace (generate_response create self_model query hist ts tm max_rounds f).2
       = trace f ++ loop_events ++ final_events
    /\ P1 loop_events /\ P2 final_events.
Proof.
  intros Hnil Happ Htool Hr Hnil2 Hf.
  destruct (rounds_trace P1 Hnil Happ Htool (system_content_of hist) ts tm (Z.to_nat max_rounds)
              Hr (set_locals [Message "user" (Query query)] None f)) as (d1 & Htr1 & H1).
  unfold generate_response, run_rounds, ebind, emodify in *.
  destruct (rounds create self_model _ ts tm (Z.to_nat max_rounds) _) as [[e|[]] f1].
  - exists d1, []. simpl in *. by rewrite app_nil_r.
  - destruct (finish_trace P2 Hnil2 hist f1 Hf) as (d2 & Htr2 & H2).
    exists d1, d2. simpl in *. split_and!; try done. by rewrite Htr2, Htr1, app_assoc.
Qed.

(** *** What the requests carry *)

(** X10. Every request of a call carries the model of the generator,
    temperature 0, at most 800 tokens and the same system instruction.  The
    requests of the round loop, the last round included, carry the tool
    definitions with the automatic tool choice when tools are given and
    not empty, and neither of the two otherwise; the request after the
    loop never carries either. *)
Theorem request_parameters (query : string) (hist : option string)
    (ts : option (list ToolDef)) (tm : option executor) (max_rounds : Z) (f : frame) :
  exists loop_events final_events,
    trace (run_rounds create self_model query hist ts tm max_rounds f).2 = trace f ++ loop_events
    /\ trace (generate_response create self_model query hist ts tm max_rounds f).2
       = trace f ++ loop_events ++ final_events
    /\ Forall (on_create (loop_request_ok self_model (system_content_of hist) ts)) loop_events
    /\ Forall (on_create (final_request_ok self_model (system_content_of hist))) final_events.
Proof.
  apply generate_response_traces.
  - constructor.
  - intros d1 d2 H1 H2. by apply Forall_app.
  - intros name input. by repeat constructor.
  - intros msgs k _. by apply retry_trace_counts.
  - constructor.
  - intros msgs k _. by apply retry_trace_counts.
Qed.

(** *** Backoff *)

Lemma sum_powers_of_two (k : nat) : sum_list (map (Nat.pow 2) (seq 0 k)) + 1 = 2 ^ k.
Proof.
  induction k as [|k IH]; [done|].
  rewrite seq_S, map_app, sum_list_with_app. simpl. lia.
Qed.

Lemma backoff_seconds_app (d1 d2 : list (event ToolDef)) :
  backoff_seconds (d1 ++ d2) = backoff_seconds d1 + backoff_seconds d2.
Proof. unfold backoff_seconds, sleeps. by rewrite flat_map_app, sum_list_with_app. Qed.

(** X11. One call of [_api_call_with_retry] that retries [k] times has
    slept [2 ^ k - 1] seconds in all and made [k + 1] calls of the client,
    with [k] at most [max_retries]: for the default of two retries, at most
    three seconds and three calls. *)
Theorem api_call_backoff_total (p : api_params ToolDef) (max_retries : nat) (f : frame) :
  exists k delta,
    k <= max_retries
    /\ trace (_api_call_with_retry create p max_retries f).2 = trace f ++ delta
    /\ backoff_seconds delta + 1 = 2 ^ k
    /\ create_calls delta = k + 1
    /\ retries delta = k.
Proof.
  destruct (retry_from_spec create p max_retries 0 f) as (k & Hk & _ & Hrun & _).
  destruct (retry_trace_counts p k 0) as (_ & Hc & Hr & Hs & _).
  exists k, (retry_trace p 0 k). unfold _api_call_with_retry. rewrite Hrun. simpl.
  split_and!; [done | done | | lia | done].
  unfold backoff_seconds. rewrite Hs. apply sum_powers_of_two.
Qed.

Lemma retry_trace_within_budget (p : api_params ToolDef) (k : nat) :
  k <= 2 -> within_budget (retry_trace p 0 k).
Proof.
  intros Hk. destruct (retry_trace_counts p k 0) as (Hq & Hc & _ & Hs & _).
  unfold within_budget, backoff_seconds. rewrite Hq, Hc, Hs.
  destruct k as [|[|[|k]]]; simpl; lia.
Qed.

(** X12. A whole call of [generate_response] sleeps at most three seconds
    and calls the client at most three times for each of its model
    requests, so with a budget of [N] rounds it sleeps at most
    [3 * (N + 1)] seconds and makes at most [3 * (N + 1)] client calls,
    whatever the model and the tools do. *)
Theorem generate_response_backoff_bound (query : string) (hist : option string)
    (ts : option (list ToolDef)) (tm : option executor) (N : Z) (f : frame) :
  exists delta,
    trace (generate_response create self_model query hist ts tm N f).2 = trace f ++ delta
    /\ backoff_seconds delta <= 3 * requests delta
    /\ create_calls delta <= 3 * requests delta
    /\ requests delta <= Z.to_nat N + 1
    /\ backoff_seconds delta <= 3 * (Z.to_nat N + 1)
    /\ create_calls delta <= 3 * (Z.to_nat N + 1).
Proof.
  assert (Happ : forall d1 d2 : list (event ToolDef),
            within_budget d1 -> within_budget d2 -> within_budget (d1 ++ d2)).
  { intros d1 d2 [H1 H2] [K1 K2]. unfold within_budget.
    rewrite backoff_seconds_app, requests_app, create_calls_app. lia. }
  assert (Hnil : within_budget (@nil (event ToolDef))) by (split; cbn; lia).
  assert (Htool : forall name input,
            within_budget [EvExecuteTool (ToolDef := ToolDef) name input]).
  { intros name input. split; cbv; lia. }
  destruct (generate_response_traces within_budget within_budget query hist ts tm N f
              Hnil Happ Htool
              (fun msgs k Hk => retry_trace_within_budget _ k Hk) Hnil
              (fun msgs k Hk => retry_trace_within_budget _ k Hk))
    as (d1 & d2 & Htr1 & Htr2 & H1 & H2).
  destruct (generate_response_spec create self_model query hist ts tm N f)
    as (e1 & e2 & Hs1 & Hs2 & (Hr1 & _) & (Hr2 & _) & _).
  rewrite Htr1 in Hs1. apply app_inv_head in Hs1 as <-.
  rewrite Htr2 in Hs2. apply app_inv_head, app_inv_head in Hs2 as <-.
  destruct (Happ d1 d2 H1 H2) as [Hb Hc].
  exists (d1 ++ d2). rewrite requests_app in *. split_and!; try done; lia.
Qed.


(** *** The tool runner without results *)

Lemma run_blocks_no_tools (ex : executor) (blocks : list content_block) (f : frame) :
  tool_use_ids blocks = [] -> run_blocks ex blocks [] f = (inr None, f).
Proof.
  induction blocks as [|[text|id name input] blocks IH]; intros Hids; [done | | done].
  cbn [run_blocks]. by apply IH.
Qed.

Lemma run_blocks_None_inv (ex : executor) (blocks : list content_block) :
  forall (acc : list tool_result) (f f' : frame),
    run_blocks ex blocks acc f = (inr None, f') ->
    (acc = [] /\ tool_use_ids blocks = [])
    \/ raises_transient ex blocks (tool_manager_state f).
Proof.
  induction blocks as [|[text|id name input] blocks IH]; intros acc f f' Hrun.
  - left. cbn in Hrun. by destruct acc.
  - cbn [run_blocks] in Hrun. destruct (IH _ _ _ Hrun) as [H|H]; [by left|].
    right. by constructor.
  - right. cbn [run_blocks] in Hrun. unfold ebind at 1 in Hrun.
    unfold attempt_, call_execute_tool in Hrun.
    destruct (ex name input (tool_manager_state f)) as [[e|r] m1] eqn:E.
    + destruct (is_transient_tool_error e) eqn:T; [by eapply rt_here|].
      destruct (IH _ _ _ Hrun) as [[Hacc _]|H]; [by destruct acc|].
      by eapply rt_after_error.
    + destruct (IH _ _ _ Hrun) as [[Hacc _]|H]; [by destruct acc|].
      by eapply rt_after_result.
Qed.

Lemma run_blocks_outcomes (ex : executor) (blocks : list content_block) :
  forall (acc : list tool_result) (f : frame),
    Forall (fun o => is_transient_outcome o = false)
           (tool_outcomes ex blocks (tool_manager_state f)) ->
    let rs := zip_with ToolResult (tool_use_ids blocks)
                (map render_outcome (tool_outcomes ex blocks (tool_manager_state f))) in
    exists m,
      run_blocks ex blocks acc f
      = (inr (match acc ++ rs with [] => None | _ :: _ => Some (acc ++ rs) end),
         Frame (client f) m (trace f ++ tool_calls blocks)
           (local_messages f) (local_response f)).
Proof.
  induction blocks as [|[text|id name input] blocks IH]; intros acc f Hall.
  - exists (tool_manager_state f). simpl. rewrite !app_nil_r. by destruct f.
  - by apply IH.
  - cbn [tool_outcomes] in *. cbn [run_blocks]. unfold ebind at 1.
    unfold attempt_, call_execute_tool.
    destruct (ex name input (tool_manager_state f)) as [o m1].
    apply Forall_cons_1 in Hall as [Ho Hall].
    set (f1 := log _ _).
    destruct o as [e|r]; simpl in Ho.
    + rewrite Ho.
      destruct (IH (acc ++ [ToolResult id ("Tool execution failed: " +:+ exn_msg e)]) f1 Hall)
        as (m & ->).
      exists m. subst f1. simpl. by rewrite <- !app_assoc.
    + destruct (IH (acc ++ [ToolResult id r]) f1 Hall) as (m & ->).
      exists m. subst f1. simpl. by rewrite <- !app_assoc.
Qed.

Lemma tool_outcomes_length (ex : executor) (blocks : list content_block) :
  forall m, List.length (tool_outcomes ex blocks m) = List.length (tool_use_ids blocks).
Proof.
  induction blocks as [|[text|id name input] blocks IH]; intros m; simpl; [done | by apply IH |].
  destruct (ex name input m) as [o m1]. simpl. by rewrite IH.
Qed.

(** X22. When none of the tool calls of a round ends in an error of the
    transient signature, the round returns one result for each tool
    request, in order: the string the tool returned, or
    [Tool execution failed: <message>] for a tool that raised; the tools
    after a failed one are still called. *)
Theorem round_results_by_outcome (r : response) (ex : executor) (f : frame) :
  tool_use_ids (response_content r) <> [] ->
  Forall (fun o => is_transient_outcome o = false)
         (tool_outcomes ex (response_content r) (tool_manager_state f)) ->
  exists m,
    _execute_tools_for_round r ex f
    = (inr (Some (zip_with ToolResult (tool_use_ids (response_content r))
                    (map render_outcome
                       (tool_outcomes ex (response_content r) (tool_manager_state f))))),
       Frame (client f) m (trace f ++ tool_calls (response_content r))
         (local_messages f) (local_response f)).
Proof.
  intros Hne Hall. unfold _execute_tools_for_round.
  destruct (run_blocks_outcomes ex _ [] f Hall) as (m & ->). exists m. cbn zeta. simpl.
  pose proof (tool_outcomes_length ex (response_content r) (tool_manager_state f)) as Hlen.
  destruct (tool_use_ids (response_content r)) as [|id ids]; [done|].
  by destruct (tool_outcomes ex (response_content r) (tool_manager_state f)).
Qed.

(** *** Calls that end early *)

#[local] Arguments rounds : simpl never.
#[local] Arguments _api_call_with_retry : simpl never.
#[local] Arguments run_blocks : simpl never.
#[local] Arguments round_params : simpl never.
#[local] Arguments final_params : simpl never.
#[local] Arguments system_content_of : simpl never.

(** X13. When the first answer of the model does not stop for tool use,
    or no tool manager is given, the call makes exactly one model request
    and returns [content[0].text] of that answer; the round state ends
    with that assistant turn. *)
Theorem direct_answer (query : string) (hist : option string)
    (ts : option (list ToolDef)) (tm : option executor) (N : Z) (f : frame)
    (r : response) (c : CS) :
  (1 <= N)%Z ->
  create (round_params self_model (system_content_of hist) ts [Message "user" (Query query)])
    (client f) = (inr r, c) ->
  stop_reason r <> "tool_use" \/ tm = None ->
  generate_response create self_model query hist ts tm N f
  = first_text (response_content r)
      (Frame c (tool_manager_state f)
         (trace f ++ [EvCreate 0 (round_params self_model (system_content_of hist) ts
                                    [Message "user" (Query query)])])
         [Message "user" (Query query); Message "assistant" (Blocks (response_content r))]
         (Some r)).
Proof.
  intros HN Hc Hstop.
  destruct (Z.to_nat N) as [|n] eqn:EN; [lia|].
  unfold generate_response, run_rounds. unfold ebind at 1 2. unfold emodify. rewrite EN.
  rewrite rounds_succ, (api_call_answered create _ 2 (set_locals _ _ f) r c Hc).
  simpl.
  assert (Hnone : (if String.eqb (stop_reason r) "tool_use" then tm else None) = None).
  { destruct Hstop as [Hne| ->]; [|by destruct (String.eqb _ _)].
    by destruct (String.eqb_spec (stop_reason r) "tool_use"). }
  rewrite Hnone. unfold finish. unfold ebind at 1. unfold eget. simpl. done.
Qed.

(** X14. With a round budget of zero or less the loop does not run: the
    call makes one request without tool definitions, whose messages are
    the user query alone, and returns [content[0].text] of the answer. *)
Theorem no_rounds_synthesis (query : string) (hist : option string)
    (ts : option (list ToolDef)) (tm : option executor) (N : Z) (f : frame)
    (r : response) (c : CS) :
  (N <= 0)%Z ->
  create (final_params self_model (system_content_of hist) [Message "user" (Query query)])
    (client f) = (inr r, c) ->
  generate_response create self_model query hist ts tm N f
  = first_text (response_content r)
      (Frame c (tool_manager_state f)
         (trace f ++ [EvCreate 0 (final_params self_model (system_content_of hist)
                                    [Message "user" (Query query)])])
         [Message "user" (Query query)] None).
Proof.
  intros HN Hc.
  assert (EN : Z.to_nat N = 0) by lia.
  unfold generate_response, run_rounds. unfold ebind at 1 2. unfold emodify. rewrite EN.
  rewrite rounds_zero. unfold finish. unfold ebind at 1. unfold eget. simpl.
  unfold ebind at 1.
  by rewrite (api_call_answered create _ 2 (set_locals _ _ f) r c Hc).
Qed.

(** X15. An error outside the transient signature at the first request
    leaves [generate_response] at once with that error: one call of the
    client, no sleep, no tool run, and the round state still the user
    query alone. *)
Theorem first_request_error_propagates (query : string) (hist : option string)
    (ts : option (list ToolDef)) (tm : option executor) (N : Z) (f : frame)
    (e : exn) (c : CS) :
  (1 <= N)%Z ->
  create (round_params self_model (system_content_of hist) ts [Message "user" (Query query)])
    (client f) = (inl e, c) ->
  is_transient_api_error e = false ->
  generate_response create self_model query hist ts tm N f
  = (inl e,
     Frame c (tool_manager_state f)
       (trace f ++ [EvCreate 0 (round_params self_model (system_content_of hist) ts
                                  [Message "user" (Query query)])])
       [Message "user" (Query query)] None).
Proof.
  intros HN Hc Ht.
  destruct (Z.to_nat N) as [|n] eqn:EN; [lia|].
  unfold generate_response, run_rounds. unfold ebind at 1 2. unfold emodify. rewrite EN.
  by rewrite rounds_succ, (api_call_other_error create _ 2 (set_locals _ _ f) e c Hc Ht).
Qed.

(** X16. When every request fails with the same error of the transient
    signature, [generate_response] raises that error after three calls of
    the client with sleeps of 1 and 2 seconds between them; no tool is
    run. *)
Theorem persistent_transient_error (query : string) (hist : option string)
    (ts : option (list ToolDef)) (tm : option executor) (N : Z) (f : frame) (e : exn) :
  (1 <= N)%Z ->
  (forall p c, (create p c).1 = inl e) ->
  is_transient_api_error e = true ->
  exists c,
    generate_response create self_model query hist ts tm N f
    = (inl e,
       Frame c (tool_manager_state f)
         (trace f ++ retry_trace (round_params self_model (system_content_of hist) ts
                                    [Message "user" (Query query)]) 0 2)
         [Message "user" (Query query)] None)
    /\ sleeps (retry_trace (round_params self_model (system_content_of hist) ts
                              [Message "user" (Query query)]) 0 2) = [1; 2]
    /\ create_calls (retry_trace (round_params self_model (system_content_of hist) ts
                                    [Message "user" (Query query)]) 0 2) = 3.
Proof.
  intros HN Hc Ht.
  destruct (Z.to_nat N) as [|n] eqn:EN; [lia|].
  unfold generate_response, run_rounds. unfold ebind at 1 2. unfold emodify. rewrite EN.
  rewrite rounds_succ. unfold _api_call_with_retry.
  match goal with |- context [retry_from create ?p 2 0 ?g] =>
    destruct (retry_from_spec create p 2 0 g) as (k & Hk & _ & Hrun & Hlast)
  end.
  rewrite Hrun. rewrite Hc in *.
  destruct (Hlast e eq_refl) as [->|Hcontra]; [|congruence].
  eexists. split_and!; done.
Qed.

(** *** The tool runner, outcome by outcome *)

(** X17. [_execute_tools_for_round] never raises, whatever the tools
    raise, and makes no model request.  It returns [None] exactly when the
    answer holds no tool request or a tool raises an error with the
    transient signature; otherwise it returns one result for each tool
    request, in order, after calling every requested tool. *)
Theorem execute_tools_for_round_outcome (r : response) (ex : executor) (f : frame) :
  exists o m delta,
    _execute_tools_for_round r ex f
      = (inr o, Frame (client f) m (trace f ++ delta) (local_messages f) (local_response f))
    /\ create_calls delta = 0
    /\ (o = None <-> tool_use_ids (response_content r) = []
                     \/ raises_transient ex (response_content r) (tool_manager_state f))
    /\ (forall rs, o = Some rs ->
          map tool_use_id rs = tool_use_ids (response_content r)
          /\ delta = tool_calls (response_content r)).
Proof.
  unfold _execute_tools_for_round.
  destruct (run_blocks_frame (fun _ => True) ex (response_content r) [] f)
    as (o & m & delta & Hrun & _ & Hres).
  assert (Hc : create_calls delta = 0).
  { destruct (run_blocks_trace (fun d => create_calls d = 0) eq_refl
                ltac:(intros d1 d2 H1 H2; cbv beta in *; rewrite create_calls_app; lia)
                ltac:(done) ex (response_content r) [] f) as (o' & m' & delta' & Hrun' & H0).
    rewrite Hrun in Hrun'. injection Hrun' as _ _ Heq. by apply app_inv_head in Heq as ->. }
  exists o, m, delta. split_and!; [done | done | | done].
  split.
  - intros ->. destruct (run_blocks_None_inv _ _ _ _ _ Hrun) as [[_ H]|H]; [by left | by right].
  - intros [Hids|Ht].
    + rewrite (run_blocks_no_tools ex _ f Hids) in Hrun. by injection Hrun as <-.
    + destruct (run_blocks_transient ex _ _ Ht [] f eq_refl) as (m' & calls & Hrun' & _).
      rewrite Hrun' in Hrun. by injection Hrun as <-.
Qed.

(** *** Every round asks for tools *)




(** *** [_handle_tool_execution] *)

Lemma collect_raises (ex : executor) (blocks : list content_block) (m : TMS) (e : exn) :
  tool_raises ex blocks m e ->
  forall (acc : list tool_result) (f : frame),
    tool_manager_state f = m ->
    exists m' calls,
      collect_tool_results ex blocks acc f
        = (inl e, Frame (client f) m' (trace f ++ calls) (local_messages f) (local_response f))
      /\ create_calls calls = 0.
Proof.
  induction 1 as [text blocks m e H IH|id name input blocks m e m' E
                 |id name input blocks m r m' e E H IH]; intros acc f Hm.
  - by apply IH.
  - exists m', [EvExecuteTool name input].
    cbn [collect_tool_results]. unfold ebind at 1. unfold call_execute_tool. by rewrite Hm, E.
  - cbn [collect_tool_results]. unfold ebind at 1. unfold call_execute_tool. rewrite Hm, E.
    set (f1 := log _ _).
    destruct (IH (acc ++ [ToolResult id r]) f1 eq_refl) as (m2 & calls & Hrun & Hc).
    exists m2, (EvExecuteTool name input :: calls). rewrite Hrun. subst f1. simpl.
    rewrite <- !app_assoc. by rewrite create_calls_cons, Hc.
Qed.


(** X19. [_handle_tool_execution] has no handler around its tool calls:
    the first error a tool raises, of whatever kind, leaves the function
    as it is, after the tool calls made so far and before any model
    request. *)
Theorem handle_tool_execution_tool_error (initial_response : response)
    (base_params : api_params ToolDef) (ex : executor) (f : frame) (e : exn) :
  tool_raises ex (response_content initial_response) (tool_manager_state f) e ->
  exists m calls,
    _handle_tool_execution create self_model initial_response base_params ex f
      = (inl e, Frame (client f) m (trace f ++ calls) (local_messages f) (local_response f))
    /\ create_calls calls = 0.
Proof.
  intros Hraise.
  destruct (collect_raises ex _ _ e Hraise [] f eq_refl) as (m & calls & Hrun & Hc).
  exists m, calls. unfold _handle_tool_execution. unfold ebind at 1. by rewrite Hrun.
Qed.


End TraceFacts.

(** *** The two transient signatures *)




(** *** Runs on the scripted client *)

Lemma direct_answer_witness :
  (generate_response (ToolDef := string) scripted_create demo_model "What is 2+2?" None
     demo_tools (Some (counting_execute_tool "Tool result")) 2
     (Frame [inr demo_final] 0 [] [] None)).1
  = inr "Here's the comprehensive information about lesson 3...".
Proof.
  rewrite (direct_answer scripted_create demo_model "What is 2+2?" None demo_tools
             (Some (counting_execute_tool "Tool result")) 2
             (Frame [inr demo_final] 0 [] [] None) demo_final []
             ltac:(lia) eq_refl ltac:(left; discriminate)).
  reflexivity.
Defined.

Lemma no_rounds_synthesis_witness :
  (generate_response (ToolDef := string) scripted_create demo_model "What is 2+2?" None
     demo_tools (Some (counting_execute_tool "Tool result")) 0
     (Frame [inr demo_final] 0 [] [] None)).1
  = inr "Here's the comprehensive information about lesson 3...".
Proof.
  rewrite (no_rounds_synthesis scripted_create demo_model "What is 2+2?" None demo_tools
             (Some (counting_execute_tool "Tool result")) 0
             (Frame [inr demo_final] 0 [] [] None) demo_final []
             ltac:(lia) eq_refl).
  reflexivity.
Defined.

Lemma first_request_error_propagates_witness :
  (generate_response (ToolDef := string) scripted_create demo_model "What is 2+2?" None
     demo_tools (Some (counting_execute_tool "Tool result")) 2
     (Frame [inl (Exn "AuthenticationError" "Invalid API key"); inr demo_final] 0 [] [] None)).1
  = inl (Exn "AuthenticationError" "Invalid API key").
Proof.
  rewrite (first_request_error_propagates scripted_create demo_model "What is 2+2?" None
             demo_tools (Some (counting_execute_tool "Tool result")) 2
             (Frame [inl (Exn "AuthenticationError" "Invalid API key"); inr demo_final]
                    0 [] [] None)
             (Exn "AuthenticationError" "Invalid API key") [inr demo_final]
             ltac:(lia) eq_refl eq_refl).
  reflexivity.
Defined.

Lemma persistent_transient_error_witness :
  (generate_response (ToolDef := string) (TMS := nat) always_rate_limited demo_model
     "test query" None None None 2 (Frame 0 0 [] [] None)).1
  = inl (Exn "Exception" "API Error: Rate limit exceeded").
Proof.
  destruct (persistent_transient_error (TMS := nat) always_rate_limited demo_model
              "test query" None None None 2 (Frame 0 0 [] [] None)
              (Exn "Exception" "API Error: Rate limit exceeded")
              ltac:(lia) ltac:(reflexivity) eq_refl) as (c & Hrun & _).
  by rewrite Hrun.
Defined.


Lemma handle_tool_execution_tool_error_witness :
  (_handle_tool_execution (ToolDef := string) scripted_create demo_model demo_tool_use_1
     (final_params demo_model "system" [Message "user" (Query "outline of MCP")])
     scripted_execute_tool
     (Frame [inr demo_final] [inl (Exn "Exception" "Tool failed")] [] [] None)).1
  = inl (Exn "Exception" "Tool failed").
Proof.
  destruct (handle_tool_execution_tool_error (ToolDef := string) scripted_create demo_model
              demo_tool_use_1
              (final_params demo_model "system" [Message "user" (Query "outline of MCP")])
              scripted_execute_tool
              (Frame [inr demo_final] [inl (Exn "Exception" "Tool failed")] [] [] None)
              (Exn "Exception" "Tool failed"))
    as (m & calls & Hrun & _).
  - eapply tr_here. reflexivity.
  - by rewrite Hrun.
Defined.


(** The round of the legacy path next to the round loop: the same failing
    tool is reported to the model by the loop and raised by
    [_handle_tool_execution]. *)
Example failing_tool_in_the_loop :
  (generate_response (ToolDef := string) scripted_create demo_model "Test error handling"
     None demo_tools (Some scripted_execute_tool) 2
     (Frame [inr demo_tool_use_1; inr demo_final] [inl (Exn "Exception" "Tool failed")]
            [] [] None)).1
  = inr "Here's the comprehensive information about lesson 3...".
Proof. reflexivity. Qed.

Lemma round_results_by_outcome_witness :
  (_execute_tools_for_round (ToolDef := string) (CS := unit)
     (Response [ToolUseBlock "a" "get_course_outline" [("course_name", VStr "MCP")];
                TextBlock "and";
                ToolUseBlock "b" "search_course_content" [("query", VStr "intro")]]
               "tool_use")
     scripted_execute_tool
     (Frame tt [inl (Exn "ValueError" "bad course"); inr "Welcome to MCP"; inr "unused"]
            [] [] None)).1
  = inr (Some [ToolResult "a" "Tool execution failed: bad course";
               ToolResult "b" "Welcome to MCP"]).
Proof.
  destruct (round_results_by_outcome (ToolDef := string) (CS := unit)
              (Response [ToolUseBlock "a" "get_course_outline" [("course_name", VStr "MCP")];
                         TextBlock "and";
                         ToolUseBlock "b" "search_course_content" [("query", VStr "intro")]]
                        "tool_use")
              scripted_execute_tool
              (Frame tt [inl (Exn "ValueError" "bad course"); inr "Welcome to MCP";
                         inr "unused"] [] [] None)) as (m & Hrun).
  - discriminate.
  - repeat constructor.
  - by rewrite Hrun.
Defined.

End AIGeneratorExtra.

(** ** The orchestrator on the registry *)

Module OrchestratorOnRegistry.

Import AIGenerator AIGeneratorFacts.

Section WithRegistry.

Context {ToolDef CS S : Type}.
Variable store : SearchTools.VectorStore S.
Variable json_loads : string -> option (list SearchTools.lesson).

Abbreviation mframe := (AIGenerator.frame ToolDef CS (SearchTools.ToolManager * S)).

(** The registry's [execute_tool] as the tool manager of the orchestrator. *)
Abbreviation registry_execute_tool := (SearchTools.execute_tool store json_loads).



(** X24. A request for the search tool that gives only declared
    properties but leaves out the required [query] does not reach the
    store: the [TypeError] of the call becomes the tool result
    [Tool execution failed: ...missing 1 required positional argument:
    'query'], and the registry, its session log and the store are left as
    they were. *)
Theorem missing_query_reported (id name sr : string) (kw : kwargs) (t : SearchTools.tool)
    (f : mframe) :
  SearchTools.dict_get name (SearchTools.tools (tool_manager_state f).1) = Some t ->
  SearchTools.impl t = SearchTools.CourseSearchTool ->
  forallb (fun k => existsb (String.eqb k)
                      (map fst (SearchTools.d_properties
                                  SearchTools.CourseSearchTool_get_tool_definition)))
          (map fst kw) = true ->
  Py.kw_get "query" kw = None ->
  _execute_tools_for_round (Response [ToolUseBlock id name kw] sr) registry_execute_tool f
  = (inr (Some [ToolResult id
                  ("Tool execution failed: "
                   +:+ "CourseSearchTool.execute() missing 1 required positional argument: 'query'")]),
     Frame (client f) (tool_manager_state f) (trace f ++ [EvExecuteTool name kw])
       (local_messages f) (local_response f)).
Proof.
  intros Hget Himpl Hkeys Hq.
  apply (SearchToolsExtra.check_keywords_conforms "CourseSearchTool.execute"
           ["query"; "course_name"; "lesson_number"] kw eq_refl) in Hkeys.
  unfold _execute_tools_for_round. cbn [response_content run_blocks].
  unfold ebind at 1. unfold attempt_, call_execute_tool.
  unfold SearchTools.execute_tool at 1. rewrite Hget.
  unfold SearchTools.execute, ebind, eget, SearchTools.bind_arguments. simpl.
  rewrite Himpl, Hkeys, Hq. simpl.
  rewrite (SearchToolsFacts.dict_set_same name t _ Hget).
  destruct f as [c [[d ss] s] tr msgs resp]. reflexivity.
Qed.

End WithRegistry.


Lemma missing_query_reported_witness :
  _execute_tools_for_round (ToolDef := string)
    (Response [ToolUseBlock "t1" "search_course_content" [("course_name", VStr "MCP")]]
              "tool_use")
    (SearchTools.execute_tool SearchTools.demo_store SearchTools.demo_json_loads)
    (Frame tt (SearchTools.demo_manager, tt) [] [] None)
  = (inr (Some [ToolResult "t1"
                  ("Tool execution failed: "
                   +:+ "CourseSearchTool.execute() missing 1 required positional argument: 'query'")]),
     Frame tt (SearchTools.demo_manager, tt)
       [EvExecuteTool "search_course_content" [("course_name", VStr "MCP")]] [] None).
Proof.
  apply (missing_query_reported (ToolDef := string) (CS := unit)
           SearchTools.demo_store SearchTools.demo_json_loads
           "t1" "search_course_content" "tool_use" [("course_name", VStr "MCP")]
           SearchTools.new_CourseSearchTool
           (Frame tt (SearchTools.demo_manager, tt) [] [] None));
    reflexivity.
Defined.

End OrchestratorOnRegistry.

(** ** The linting script *)

Module LintScriptFacts.

Import LintScript.

Section ScriptFacts.

Context {OS : Type}.
Variable subprocess_run : list string -> eff OS completed.




End ScriptFacts.

(** Findings from flake8 and no mypy: both are run, exit code 1. *)
Example main_with_failures :
  (main demo_subprocess_run (World tt [] [])).1 = inr 1%Z
  /\ ran (main demo_subprocess_run (World tt [] [])).2 = map fst commands.
Proof. vm_compute. by split. Qed.

End LintScriptFacts.
